(** * Form-structure derivation of the schema-driven front-end

    A shallow embedding of
    - [frontend/src/utils/formStructureForCreateEdit.ts]
      ([getFormStructureForCreateEdit], [getFormStructureForMetaEdit]),
    - the query hook [useObjectDetails],
    - the browser test helpers [createBranch] and [saveScreenshotForDocs],
      and
    - the tab switch [renderContent] of the user-profile screen,
    together with the properties the specification states about them and
    further properties read off the code.

    JavaScript values are modelled as JSON-like data, exceptions as an
    explicit completion type, the in-place [push] on [formFields] as
    explicit state passing, and objects used as dictionaries as [gmap]. *)

From Stdlib Require Import String Ascii List ZArith NArith Bool PrimFloat Uint63.
From stdpp Require Import base option strings list gmap.

Local Open Scope string_scope.
Local Open Scope list_scope.

(** ** JavaScript values *)

(** The values a row of data ([row?: any]) is made of.  Numbers are IEEE
    binary64, as in JavaScript.  An object is its list of own properties, in
    insertion order; a lookup finds the first binding of a key.  Function
    values (and with them the members inherited from the prototypes) are
    outside this type. *)
#[warnings="-register-all"]
Inductive jsval : Type :=
| JUndefined
| JNull
| JBool (b : bool)
| JNum (x : float)
| JStr (s : string)
| JArr (items : list jsval)
| JObj (props : list (string * jsval)).

(** ToBoolean: [undefined], [null], [false], [0], [-0], [NaN] and the empty
    string are falsy, everything else (every array and object) is truthy. *)
Definition truthy (v : jsval) : bool :=
  match v with
  | JUndefined | JNull => false
  | JBool b => b
  | JNum x => negb (PrimFloat.is_nan x || PrimFloat.is_zero x)
  | JStr EmptyString => false
  | JStr (String _ _) => true
  | JArr _ | JObj _ => true
  end.

(** ** Completions: a value is returned or an exception is thrown *)

Inductive js_error : Type :=
| TypeError
| TimeoutError
| ExpectationError.

Inductive completion (A : Type) : Type :=
| Return (a : A)
| Throw (e : js_error).
Arguments Return {A} a.
Arguments Throw {A} e.

#[export] Instance completion_ret : MRet completion := fun A a => Return a.
#[export] Instance completion_bind : MBind completion := fun A B k c =>
  match c with
  | Return a => k a
  | Throw e => Throw e
  end.

(** ** Property access *)

Definition digit_of (c : ascii) : option N :=
  let n := N_of_ascii c in
  if ((48 <=? n) && (n <=? 57))%N then Some (n - 48)%N else None.

Fixpoint parse_digits (s : string) (acc : N) : option N :=
  match s with
  | EmptyString => Some acc
  | String c s' =>
      match digit_of c with
      | Some d => parse_digits s' (10 * acc + d)%N
      | None => None
      end
  end.

(** A property key that is an array index: a decimal numeral in canonical
    form (no sign, no leading zero). *)
Definition array_index (key : string) : option nat :=
  match key with
  | EmptyString => None
  | String "0"%char EmptyString => Some 0
  | String "0"%char _ => None
  | _ => N.to_nat <$> parse_digits key 0%N
  end.

Definition number_of_nat (n : nat) : jsval :=
  JNum (PrimFloat.of_uint63 (Uint63.of_Z (Z.of_nat n))).

Fixpoint own_property (props : list (string * jsval)) (key : string) : jsval :=
  match props with
  | [] => JUndefined
  | (k, v) :: props' => if String.eqb k key then v else own_property props' key
  end.

(** The property [key] of a value that is neither [undefined] nor [null];
    a missing property reads as [undefined].  Only the properties a value
    has of its own are found here: the members it inherits from the
    prototypes of the runtime ([constructor], [toString], ...) are functions
    and outside [jsval], so this agrees with the code for every key that is
    a property of the value itself or that no prototype defines. *)
Definition property_of (v : jsval) (key : string) : jsval :=
  match v with
  | JUndefined | JNull | JBool _ | JNum _ => JUndefined
  | JStr s =>
      if String.eqb key "length" then number_of_nat (String.length s)
      else match array_index key with
           | Some i =>
               match String.get i s with
               | Some c => JStr (String c EmptyString)
               | None => JUndefined
               end
           | None => JUndefined
           end
  | JArr items =>
      if String.eqb key "length" then number_of_nat (length items)
      else match array_index key with
           | Some i => default JUndefined (items !! i)
           | None => JUndefined
           end
  | JObj props => own_property props key
  end.

Definition nullish (v : jsval) : bool :=
  match v with
  | JUndefined | JNull => true
  | _ => false
  end.

(** [v[key]] (and [v.key]): reading a property of [undefined] or [null]
    throws a TypeError. *)
Definition getProp (v : jsval) (key : string) : completion jsval :=
  if nullish v then Throw TypeError else Return (property_of v key).

(** [v?.[key]]: optional chaining yields [undefined] where [getProp]
    throws. *)
Definition getPropOptional (v : jsval) (key : string) : jsval :=
  if nullish v then JUndefined else property_of v key.

(** [value.map((item) => item.id)] on the elements of an array, left to
    right; the first failing element aborts the traversal. *)
Fixpoint mapM_completion {A B : Type} (f : A -> completion B) (l : list A)
  : completion (list B) :=
  match l with
  | [] => Return []
  | x :: l' => y ← f x; ys ← mapM_completion f l'; Return (y :: ys)
  end.

(** [Array.prototype.forEach] with a callback that updates the state it
    closes over (here: the array [formFields] it pushes to). *)
Fixpoint forEach {A S : Type} (callback : A -> S -> completion S)
  (l : list A) (st : S) : completion S :=
  match l with
  | [] => Return st
  | x :: l' => st' ← callback x st; forEach callback l' st'
  end.

(** [Array.prototype.push] of one element. *)
Definition push {A : Type} (arr : list A) (x : A) : list A := arr ++ [x].

(** ** Schema definitions

    The fields of the API schema objects that the derivation reads.  The
    generated declarations of these types are not among the sources; an
    optional field ([f?: T], absent or [null]) is an [option]. *)

Module AttributeSchema.
Record t : Type := mk {
  name : string;
  kind : string;
  enum : option (list jsval);
  label : option string;
  optional : option bool
}.
End AttributeSchema.

Module RelationshipSchema.
(** [cardinality] is kept as the string the code compares with ["one"] and
    ["many"]. *)
Record t : Type := mk {
  name : string;
  kind : string;
  peer : string;
  cardinality : string;
  inherited : option bool;
  label : option string
}.
End RelationshipSchema.

Module iNodeSchema.
Record t : Type := mk {
  name : string;
  kind : string;
  attributes : option (list AttributeSchema.t);
  relationships : option (list RelationshipSchema.t);
  inherit_from : option (list string);
  generate_profile : option bool
}.
End iNodeSchema.

Module iGenericSchema.
Record t : Type := mk {
  name : string;
  kind : string;
  used_by : option (list string);
  generate_profile : option bool
}.
End iGenericSchema.

(** One entry of a dropdown option set: a selectable (id, display label)
    pair of a peer type. *)
Module iPeerDropdownOption.
Record t : Type := mk {
  id : string;
  display_label : string
}.
End iPeerDropdownOption.

Module SelectOption.
Record t : Type := mk {
  name : jsval;
  id : jsval
}.
End SelectOption.

(** [ControlType] is a union of string literals. *)
Definition ControlType : Type := string.

Module FieldConfig.
Record t : Type := mk {
  required : option string
}.
End FieldConfig.

(** A field descriptor.  [options] holds [options.values]; the properties a
    given object literal does not set are [None]. *)
Module DynamicFieldData.
Record t : Type := mk {
  name : string;
  kind : string;
  isAttribute : option bool;
  isRelationship : option bool;
  type : ControlType;
  label : string;
  value : jsval;
  options : list SelectOption.t;
  config : option FieldConfig.t
}.
End DynamicFieldData.

(** Truthiness of an optional string ([label]) and of an optional boolean
    ([inherited]). *)
Definition truthy_string (s : option string) : bool :=
  match s with
  | Some (String _ _) => true
  | _ => false
  end.

Definition truthy_flag (b : option bool) : bool :=
  match b with
  | Some true => true
  | _ => false
  end.

(** The key under which [dict[k]] looks when [k] itself came from a lookup
    that may have found nothing: [undefined] is converted to the string
    ["undefined"]. *)
Definition property_key (k : option string) : string := default "undefined" k.

(** ** The form-structure deriver *)

Section FormStructure.

(** The fixed kind-to-control-type table, declared in
    [screens/edit-form-hook/dynamic-control-types], which is not among the
    sources: a parameter of the development. *)
Variable getFormInputControlTypeFromSchemaAttributeKind : string -> ControlType.

(** The type of the argument [genericSchemaMap], which the function never
    reads. *)
Variable iGenericSchemaMapping : Type.

(** The descriptor pushed for one attribute (callback of the first
    [forEach], source lines 27-49). *)
Definition attributeFormField (row : jsval) (attribute : AttributeSchema.t)
  : completion DynamicFieldData.t :=
  let options :=
    match AttributeSchema.enum attribute with
    | Some enum =>
        map (fun row => {| SelectOption.name := row; SelectOption.id := row |})
          enum
    | None => []
    end in
  value ←
    (if truthy row then
       v ← getProp row (AttributeSchema.name attribute);
       if truthy v then getProp v "value" else Return (JStr "")
     else Return (JStr ""));
  Return {|
    DynamicFieldData.name := AttributeSchema.name attribute +:+ ".value";
    DynamicFieldData.kind := AttributeSchema.kind attribute;
    DynamicFieldData.isAttribute := None;
    DynamicFieldData.isRelationship := None;
    DynamicFieldData.type :=
      match AttributeSchema.enum attribute with
      | Some _ => "select"
      | None =>
          getFormInputControlTypeFromSchemaAttributeKind
            (AttributeSchema.kind attribute)
      end;
    DynamicFieldData.label :=
      if truthy_string (AttributeSchema.label attribute)
      then default "" (AttributeSchema.label attribute)
      else AttributeSchema.name attribute;
    DynamicFieldData.value := value;
    DynamicFieldData.options := options;
    DynamicFieldData.config :=
      Some {| FieldConfig.required :=
                Some (match AttributeSchema.optional attribute with
                      | Some false => "Required"
                      | _ => ""
                      end) |}
  |}.

(** The selectable options of a relationship (source lines 54-78).  The two
    dictionaries are finite maps of their own entries; a key that names a
    member every object inherits ([constructor], [toString], ...) finds
    nothing here. *)
Definition relationshipOptions
  (schemas : list iNodeSchema.t) (generics : list iGenericSchema.t)
  (dropdownOptions : gmap string (list iPeerDropdownOption.t))
  (schemaKindNameMap : gmap string string)
  (relationship : RelationshipSchema.t) : list SelectOption.t :=
  let isInherited := RelationshipSchema.inherited relationship in
  let peerOptions :=
    if truthy_flag isInherited then None
    else dropdownOptions !!
           property_key (schemaKindNameMap !! RelationshipSchema.peer relationship) in
  match peerOptions with
  | Some rows =>
      map (fun row =>
             {| SelectOption.name := JStr (iPeerDropdownOption.display_label row);
                SelectOption.id := JStr (iPeerDropdownOption.id row) |})
        rows
  | None =>
      match List.find (fun g => String.eqb (iGenericSchema.kind g)
                                  (RelationshipSchema.peer relationship))
              generics with
      | Some generic =>
          fold_left
            (fun options name =>
               match List.find (fun s => String.eqb (iNodeSchema.kind s) name)
                       schemas with
               | Some relatedSchema =>
                   push options
                     {| SelectOption.id := JStr (iNodeSchema.name relatedSchema);
                        SelectOption.name := JStr name |}
               | None => options
               end)
            (default [] (iGenericSchema.used_by generic)) []
      | None => []
      end
  end.

(** The initial value of a relationship field (the immediately invoked
    function of source lines 87-102). *)
Definition relationshipValue (row : jsval) (relationship : RelationshipSchema.t)
  : completion jsval :=
  let isInherited := truthy_flag (RelationshipSchema.inherited relationship) in
  if negb (truthy row) then Return (JStr "")
  else
    value ← getProp row (RelationshipSchema.name relationship);
    if negb (truthy value) then Return (JStr "")
    else if String.eqb (RelationshipSchema.cardinality relationship) "one"
            && negb isInherited
    then getProp value "id"
    else if String.eqb (RelationshipSchema.cardinality relationship) "one"
            && isInherited
    then Return value
    else
      match value with
      | JArr items =>
          ids ← mapM_completion (fun item => getProp item "id") items;
          Return (JArr ids)
      | _ => Throw TypeError
      end.

(** The descriptor pushed for one relationship (callback of the second
    [forEach], source lines 53-107). *)
Definition relationshipFormField
  (schemas : list iNodeSchema.t) (generics : list iGenericSchema.t)
  (dropdownOptions : gmap string (list iPeerDropdownOption.t))
  (schemaKindNameMap : gmap string string)
  (row : jsval) (relationship : RelationshipSchema.t)
  : completion DynamicFieldData.t :=
  let options :=
    relationshipOptions schemas generics dropdownOptions schemaKindNameMap
      relationship in
  let isInherited := truthy_flag (RelationshipSchema.inherited relationship) in
  value ← relationshipValue row relationship;
  Return {|
    DynamicFieldData.name :=
      RelationshipSchema.name relationship +:+
      (if String.eqb (RelationshipSchema.cardinality relationship) "one"
       then ".id" else ".list");
    DynamicFieldData.kind := "String";
    DynamicFieldData.isAttribute := None;
    DynamicFieldData.isRelationship := None;
    DynamicFieldData.type :=
      if String.eqb (RelationshipSchema.cardinality relationship) "many"
      then "multiselect"
      else if isInherited then "select2step" else "select";
    DynamicFieldData.label :=
      if truthy_string (RelationshipSchema.label relationship)
      then default "" (RelationshipSchema.label relationship)
      else RelationshipSchema.name relationship;
    DynamicFieldData.value := value;
    DynamicFieldData.options := options;
    DynamicFieldData.config := None
  |}.

(** [relationship.kind === "Attribute"], the filter of source line 52. *)
Definition isAttributeKind (relationship : RelationshipSchema.t) : bool :=
  String.eqb (RelationshipSchema.kind relationship) "Attribute".

Definition getFormStructureForCreateEdit
  (schema : option iNodeSchema.t)
  (schemas : list iNodeSchema.t) (generics : list iGenericSchema.t)
  (dropdownOptions : gmap string (list iPeerDropdownOption.t))
  (schemaKindNameMap : gmap string string)
  (genericSchemaMap : iGenericSchemaMapping)
  (row : jsval) : completion (list DynamicFieldData.t) :=
  match schema with
  | None => Return []
  | Some schema =>
      let formFields : list DynamicFieldData.t := [] in
      formFields ←
        match iNodeSchema.attributes schema with
        | Some attributes =>
            forEach
              (fun attribute formFields =>
                 field ← attributeFormField row attribute;
                 Return (push formFields field))
              attributes formFields
        | None => Return formFields
        end;
      formFields ←
        match iNodeSchema.relationships schema with
        | Some relationships =>
            forEach
              (fun relationship formFields =>
                 field ← relationshipFormField schemas generics dropdownOptions
                           schemaKindNameMap row relationship;
                 Return (push formFields field))
              (List.filter isAttributeKind relationships) formFields
        | None => Return formFields
        end;
      Return formFields
  end.

End FormStructure.

(** The lists the two loops run over: [schema.attributes] and
    [schema.relationships.filter(kind === "Attribute")], each empty when the
    schema has no such property. *)
Definition attributesOf (schema : iNodeSchema.t) : list AttributeSchema.t :=
  default [] (iNodeSchema.attributes schema).

Definition attributeKindRelationships (schema : iNodeSchema.t)
  : list RelationshipSchema.t :=
  List.filter isAttributeKind (default [] (iNodeSchema.relationships schema)).

(** ** The metadata-edit form *)

(** The parameter [type: "attribute" | "relationship"]. *)
Inductive MetaEditType : Type :=
| MetaAttribute
| MetaRelationship.

(** [s.split(sep)] for a separator of one character. *)
Fixpoint split (sep : ascii) (s : string) : list string :=
  match s with
  | EmptyString => [EmptyString]
  | String c s' =>
      if Ascii.eqb c sep then EmptyString :: split sep s'
      else match split sep s' with
           | seg :: segs => String c seg :: segs
           | [] => [String c EmptyString]
           end
  end.

Definition relatedObjects : gmap string string :=
  list_to_map
    [("source", "DataSource");
     ("owner", "DataOwner");
     ("_relation__source", "DataSource");
     ("_relation__owner", "DataOwner")].

(** [f.split("_").filter(r => !!r).join(" ")] *)
Definition metaFieldLabel (f : string) : string :=
  String.concat " "
    (List.filter (fun r => truthy (JStr r)) (split "_"%char f)).

Definition getFormStructureForMetaEdit
  (row : jsval) (type : MetaEditType)
  (attributeOrRelationshipName : string)
  (schemaList : list iNodeSchema.t) : list DynamicFieldData.t :=
  let sourceOwnerFields :=
    match type with
    | MetaAttribute => ["owner"; "source"]
    | MetaRelationship => ["_relation__owner"; "_relation__source"]
    end in
  let booleanFields :=
    match type with
    | MetaAttribute => ["is_visible"; "is_protected"]
    | MetaRelationship => ["_relation__is_visible"; "_relation__is_protected"]
    end in
  let sourceOwnerFormFields :=
    map (fun f =>
           let metaFieldName := attributeOrRelationshipName +:+ "." +:+ f in
           let schemaOptions :=
             map (fun schema =>
                    {| SelectOption.name := JStr (iNodeSchema.kind schema);
                       SelectOption.id := JStr (iNodeSchema.name schema) |})
               (List.filter
                  (fun schema =>
                     match relatedObjects !! f with
                     | Some related =>
                         existsb (String.eqb related)
                           (default [] (iNodeSchema.inherit_from schema))
                     | None => false
                     end)
                  schemaList) in
           {| DynamicFieldData.name := metaFieldName;
              DynamicFieldData.kind := "Text";
              DynamicFieldData.isAttribute := Some false;
              DynamicFieldData.isRelationship := Some false;
              DynamicFieldData.type := "select2step";
              DynamicFieldData.label := metaFieldLabel f;
              DynamicFieldData.value :=
                getPropOptional
                  (getPropOptional row attributeOrRelationshipName) f;
              DynamicFieldData.options := schemaOptions;
              DynamicFieldData.config :=
                Some {| FieldConfig.required := None |} |})
      sourceOwnerFields in
  let booleanFormFields :=
    map (fun f =>
           let metaFieldName := attributeOrRelationshipName +:+ "." +:+ f in
           {| DynamicFieldData.name := metaFieldName;
              DynamicFieldData.kind := "Checkbox";
              DynamicFieldData.isAttribute := Some false;
              DynamicFieldData.isRelationship := Some false;
              DynamicFieldData.type := "checkbox";
              DynamicFieldData.label := metaFieldLabel f;
              DynamicFieldData.value :=
                getPropOptional
                  (getPropOptional row attributeOrRelationshipName) f;
              DynamicFieldData.options := [];
              DynamicFieldData.config :=
                Some {| FieldConfig.required := None |} |})
      booleanFields in
  sourceOwnerFormFields ++ booleanFormFields.

(** ** The object-details query hook *)

(** [IModelSchema = iGenericSchema | iNodeSchema] *)
Inductive IModelSchema : Type :=
| GenericSchema (g : iGenericSchema.t)
| NodeSchema (n : iNodeSchema.t).

Definition IModelSchema_kind (schema : IModelSchema) : string :=
  match schema with
  | GenericSchema g => iGenericSchema.kind g
  | NodeSchema n => iNodeSchema.kind n
  end.

Definition IModelSchema_generate_profile (schema : IModelSchema) : option bool :=
  match schema with
  | GenericSchema g => iGenericSchema.generate_profile g
  | NodeSchema n => iNodeSchema.generate_profile n
  end.

(** The options object handed to [useQuery]. *)
Module QueryHookOptions.
Record t : Type := mk {
  skip : bool;
  notifyOnNetworkStatusChange : bool
}.
End QueryHookOptions.

Section ObjectDetails.

(** What the hook imports and does not define: the constants, the column and
    tab helpers, the query builder, the GraphQL parser [gql] (which throws on
    a document it cannot parse) and the query hook it wraps. *)
Variables Columns Tabs DocumentNode QueryResult : Type.
Variable PROFILE_KIND : string.
Variable TASK_OBJECT : string.
Variable getTabs : option IModelSchema -> Tabs.
Variable getSchemaObjectColumns : option IModelSchema -> Columns.
Variable isGeneric : IModelSchema -> bool.

(** The argument object of [getObjectDetailsPaginated].  [queryProfiles] is
    the value of a chain of [&&]: [false], or the schema's optional
    [generate_profile]. *)
Record ObjectDetailsParams : Type := mkObjectDetailsParams {
  od_kind : string;
  od_taskKind : string;
  od_columns : Columns;
  od_relationshipsTabs : Tabs;
  od_objectid : string;
  od_queryProfiles : option bool
}.

Variable getObjectDetailsPaginated : ObjectDetailsParams -> string.
Variable gql : string -> completion DocumentNode.
Variable useQuery : DocumentNode -> QueryHookOptions.t -> QueryResult.

(** The string handed to [gql] (source lines 62-80). *)
Definition objectDetailsQueryString
  (generics : list iGenericSchema.t) (schema : option IModelSchema)
  (objectId : string) : string :=
  let profileGenericSchema :=
    List.find (fun s => String.eqb (iGenericSchema.kind s) PROFILE_KIND)
      generics in
  let relationshipsTabs := getTabs schema in
  let columns := getSchemaObjectColumns schema in
  match schema with
  | Some sch =>
      getObjectDetailsPaginated {|
        od_kind := IModelSchema_kind sch;
        od_taskKind := TASK_OBJECT;
        od_columns := columns;
        od_relationshipsTabs := relationshipsTabs;
        od_objectid := objectId;
        od_queryProfiles :=
          if negb (match profileGenericSchema with
                   | Some g =>
                       match iGenericSchema.used_by g with
                       | Some used_by =>
                           existsb (String.eqb (IModelSchema_kind sch)) used_by
                       | None => false
                       end
                   | None => false
                   end)
             && negb (String.eqb (IModelSchema_kind sch) PROFILE_KIND)
             && negb (isGeneric sch)
          then IModelSchema_generate_profile sch
          else Some false
      |}
  | None => "query { ok }"
  end.

(** [generics] is the value of the atom [genericsState] read by
    [useAtomValue]. *)
Definition useObjectDetails
  (generics : list iGenericSchema.t) (schema : option IModelSchema)
  (objectId : string) : completion QueryResult :=
  query ← gql (objectDetailsQueryString generics schema objectId);
  Return (useQuery query {|
    QueryHookOptions.skip :=
      match schema with Some _ => false | None => true end;
    QueryHookOptions.notifyOnNetworkStatusChange := true
  |}).

End ObjectDetails.

(** ** The branch-creation test helper *)

(** [haystack.includes(needle)], which is also what the matcher
    [toContain] checks on a string. *)
Fixpoint includes (needle haystack : string) : bool :=
  String.prefix needle haystack
  || match haystack with
     | EmptyString => false
     | String _ rest => includes needle rest
     end.

(** What the helper reads of a network response:
    [response.request().postDataJSON()?.operationName], [response.status()]
    and [response.url()]. *)
Module Response.
Record t : Type := mk {
  operationName : option string;
  status : Z;
  url : string
}.
End Response.

(** The state of the page under test: its location, split into the part
    before the query string and the query string, whether the branch dialog
    is open, the content of its input [New branch name], and the branch
    whose creation has been submitted. *)
Module Page.
Record t : Type := mk {
  location : string;
  search : string;
  dialogOpen : bool;
  newBranchName : string;
  submitted : option string
}.
End Page.

(** [page.url()] *)
Definition page_url (page : Page.t) : string :=
  Page.location page +:+ Page.search page.

(** The predicate of the first [waitForResponse] (source lines 18-23). *)
Definition isBranchCreateResponse (response : Response.t) : bool :=
  bool_decide (Response.operationName response = Some "BranchCreate")
  && (Response.status response =? 200)%Z.

(** The predicate of the second [waitForResponse] (source lines 24-34).  The
    regular expression ["graphql/(main|" + branchName + ")"] is searched for
    anywhere in the URL; for a branch name free of regular-expression
    operators that is a search for one of two substrings. *)
Definition isOtherGraphqlResponse (branchName : string) (response : Response.t)
  : bool :=
  negb (bool_decide (Response.operationName response = Some "BranchCreate"))
  && (includes "graphql/main" (Response.url response)
      || includes ("graphql/" +:+ branchName) (Response.url response))
  && (Response.status response =? 200)%Z.

(** Modelled from the spec: the branch-creation dialog of the application,
    which is not among the sources.  The spec says that branch creation is
    signaled by a URL query parameter [branch=<name>] appearing after
    successful creation: the button [create-branch-button] opens the
    dialog, filling the input records the name, the button [Create] submits
    it, and the answer to a successful [BranchCreate] request puts the query
    string [?branch=<name>] into the location. *)
Definition app_click_create_branch_button (page : Page.t) : Page.t :=
  {| Page.location := Page.location page;
     Page.search := Page.search page;
     Page.dialogOpen := true;
     Page.newBranchName := Page.newBranchName page;
     Page.submitted := Page.submitted page |}.

(** Modelled from the spec: the input [New branch name] of the missing
    dialog (see [app_click_create_branch_button]). *)
Definition app_fill_new_branch_name (page : Page.t) (name : string) : Page.t :=
  {| Page.location := Page.location page;
     Page.search := Page.search page;
     Page.dialogOpen := Page.dialogOpen page;
     Page.newBranchName := name;
     Page.submitted := Page.submitted page |}.

(** Modelled from the spec: the button [Create] of the missing dialog (see
    [app_click_create_branch_button]). *)
Definition app_click_create (page : Page.t) : Page.t :=
  {| Page.location := Page.location page;
     Page.search := Page.search page;
     Page.dialogOpen := Page.dialogOpen page;
     Page.newBranchName := Page.newBranchName page;
     Page.submitted := Some (Page.newBranchName page) |}.

(** Modelled from the spec: the reaction of the missing dialog to a network
    response (see [app_click_create_branch_button]). *)
Definition app_on_response (page : Page.t) (response : Response.t) : Page.t :=
  match Page.submitted page with
  | Some name =>
      if isBranchCreateResponse response
      then {| Page.location := Page.location page;
              Page.search := "?branch=" +:+ name;
              Page.dialogOpen := false;
              Page.newBranchName := Page.newBranchName page;
              Page.submitted := None |}
      else page
  | None => page
  end.

(** [Promise.all] over the two [waitForResponse] calls: the responses arrive
    one after the other, the application reacts to each, and the wait ends
    once each predicate has accepted a response.  A network that falls silent
    before that makes the wait time out. *)
Fixpoint awaitResponses (branchName : string) (resolved1 resolved2 : bool)
  (network : list Response.t) (page : Page.t) : completion Page.t :=
  if resolved1 && resolved2 then Return page
  else
    match network with
    | [] => Throw TimeoutError
    | response :: network' =>
        awaitResponses branchName
          (resolved1 || isBranchCreateResponse response)
          (resolved2 || isOtherGraphqlResponse branchName response)
          network' (app_on_response page response)
    end.

(** [createBranch(page, branchName)]; [network] is the sequence of responses
    the page receives after the click on [Create]. *)
Definition createBranch (page : Page.t) (branchName : string)
  (network : list Response.t) : completion Page.t :=
  let page := app_click_create_branch_button page in
  let page := app_fill_new_branch_name page branchName in
  page ← awaitResponses branchName false false network (app_click_create page);
  if includes "?branch=" (page_url page) then Return page
  else Throw ExpectationError.

(** ** Sample data

    A table standing in for the missing kind-to-control-type table when the
    deriver is run on examples, and a small schema with a row of data. *)

Definition sampleControlTypeTable (kind : string) : ControlType :=
  if String.eqb kind "Checkbox" then "checkbox" else "text".

Definition sampleName : AttributeSchema.t :=
  AttributeSchema.mk "name" "Text" None (Some "Name") (Some false).

Definition sampleStatus : AttributeSchema.t :=
  AttributeSchema.mk "status" "Text" (Some [JStr "active"; JStr "down"])
    None (Some true).

Definition sampleEnabled : AttributeSchema.t :=
  AttributeSchema.mk "enabled" "Checkbox" None (Some "") None.

Definition sampleSite : RelationshipSchema.t :=
  RelationshipSchema.mk "site" "Attribute" "Location" "one" None (Some "Site").

Definition sampleTags : RelationshipSchema.t :=
  RelationshipSchema.mk "tags" "Attribute" "Tag" "many" (Some false) None.

Definition sampleInterfaces : RelationshipSchema.t :=
  RelationshipSchema.mk "interfaces" "Component" "Interface" "many" None None.

Definition sampleOwner : RelationshipSchema.t :=
  RelationshipSchema.mk "owner" "Attribute" "Owner" "one" (Some true) None.

Definition sampleSchema : iNodeSchema.t :=
  iNodeSchema.mk "device" "Device"
    (Some [sampleName; sampleStatus; sampleEnabled])
    (Some [sampleSite; sampleTags; sampleInterfaces; sampleOwner])
    None None.

Definition sampleRow : jsval :=
  JObj [("name", JObj [("value", JStr "atl1-edge1")]);
        ("site", JObj [("id", JStr "s-1"); ("display_label", JStr "atl1")]);
        ("tags", JArr [JObj [("id", JStr "t-1")]; JObj [("id", JStr "t-2")]]);
        ("owner", JObj [("parent", JStr "Group"); ("child", JStr "g-7")])].

Definition sampleDropdownOptions : gmap string (list iPeerDropdownOption.t) :=
  {[ "location" := [iPeerDropdownOption.mk "s-1" "atl1"] ]}.

Definition sampleSchemaKindNameMap : gmap string string :=
  {[ "Location" := "location" ]}.

(** The descriptors derived from the sample schema and row. *)
Definition sampleFields : list DynamicFieldData.t :=
  Eval vm_compute in
    match getFormStructureForCreateEdit sampleControlTypeTable unit
            (Some sampleSchema) [] [] sampleDropdownOptions
            sampleSchemaKindNameMap tt sampleRow with
    | Return fields => fields
    | Throw _ => []
    end.

(** A second schema, with the attribute [status] declared without its
    enumeration, and its descriptors for an empty form. *)
Definition samplePlainStatus : AttributeSchema.t :=
  AttributeSchema.mk "status" "Text" None None (Some true).

Definition samplePlainSchema : iNodeSchema.t :=
  iNodeSchema.mk "probe" "Probe" (Some [samplePlainStatus])
    (Some [sampleTags]) None None.

Definition samplePlainFields : list DynamicFieldData.t :=
  Eval vm_compute in
    match getFormStructureForCreateEdit sampleControlTypeTable unit
            (Some samplePlainSchema) [] [] ∅ ∅ tt JUndefined with
    | Return fields => fields
    | Throw _ => []
    end.

(** ** The user-profile screen *)

Module PROFILE_TABS.
Definition PREFERENCES : string := "Preferences".
Definition PROFILE : string := "Profile".
Definition TOKENS : string := "API Tokens".
Definition ACCOUNT : string := "Account".
End PROFILE_TABS.

Module Tab.
Record t : Type := mk {
  label : string;
  name : string
}.
End Tab.

Definition tabs : list Tab.t :=
  [Tab.mk PROFILE_TABS.PROFILE "profile";
   Tab.mk PROFILE_TABS.PREFERENCES "preferences";
   Tab.mk PROFILE_TABS.TOKENS "tokens";
   Tab.mk PROFILE_TABS.ACCOUNT "account"].

(** The component a [case] of [renderContent] renders. *)
Inductive TabPanel : Type :=
| TabTokens
| TabPassword
| TabPreferences
| TabProfile.

(** [renderContent(tab)] with [tab: string | null | undefined]; [None] is
    [null] or [undefined], which only the [default] case takes. *)
Definition renderContent (tab : option string) : TabPanel :=
  match tab with
  | Some tab =>
      if String.eqb tab PROFILE_TABS.TOKENS then TabTokens
      else if String.eqb tab PROFILE_TABS.ACCOUNT then TabPassword
      else if String.eqb tab PROFILE_TABS.PREFERENCES then TabPreferences
      else TabProfile
  | None => TabProfile
  end.

(** ** The screenshot helper *)

(** The calls [saveScreenshotForDocs] issues on the page. *)
Inductive PageAction : Type :=
| WaitForLoadState (state : string)
| Screenshot (path : string) (animations : string).

(** [saveScreenshotForDocs(page, filename)], as the calls it issues in
    order; the first argument is [process.env.UPDATE_DOCS_SCREENSHOTS], a
    string when the variable is set. *)
Definition saveScreenshotForDocs (UPDATE_DOCS_SCREENSHOTS : option string)
  (filename : string) : list PageAction :=
  if negb (truthy_string UPDATE_DOCS_SCREENSHOTS) then []
  else [WaitForLoadState "networkidle";
        Screenshot ("../docs/docs/media/" +:+ filename +:+ ".png") "disabled"].

(** ** More sample data *)

(** A generic with the concrete kinds that use it, and the schemas known
    for two of them. *)
Definition sampleGeneric : iGenericSchema.t :=
  iGenericSchema.mk "owner" "Owner" (Some ["Group"; "Account"; "Robot"]) None.

Definition sampleGroupSchema : iNodeSchema.t :=
  iNodeSchema.mk "group" "Group" None None (Some ["DataOwner"]) None.

Definition sampleAccountSchema : iNodeSchema.t :=
  iNodeSchema.mk "account" "Account" None None
    (Some ["DataOwner"; "DataSource"]) (Some true).

(** A row in which the relationship [tags] holds a single object where a
    list is expected. *)
Definition sampleBadRow : jsval :=
  JObj [("tags", JObj [("id", JStr "t-1")])].

(** The sample schema under another name and without its relationship of
    kind ["Component"]. *)
Definition sampleTrimmedSchema : iNodeSchema.t :=
  iNodeSchema.mk "router" "Router"
    (Some [sampleName; sampleStatus; sampleEnabled])
    (Some [sampleSite; sampleTags; sampleOwner])
    (Some ["Asset"]) (Some true).

(** The descriptors derived from the sample schema and row when the generic
    [Owner] and the schemas of two of its users are known. *)
Definition sampleGenericFields : list DynamicFieldData.t :=
  Eval vm_compute in
    match getFormStructureForCreateEdit sampleControlTypeTable unit
            (Some sampleSchema) [sampleGroupSchema; sampleAccountSchema]
            [sampleGeneric] sampleDropdownOptions sampleSchemaKindNameMap tt
            sampleRow with
    | Return fields => fields
    | Throw _ => []
    end.

(** The last character of a string. *)
Fixpoint last_char (s : string) : option ascii :=
  match s with
  | EmptyString => None
  | String c EmptyString => Some c
  | String _ s' => last_char s'
  end.

(** The characters with a meaning of their own in a regular expression. *)
Definition regexSyntaxCharacter (c : ascii) : bool :=
  existsb (Ascii.eqb c) (list_ascii_of_string "\^$.|?*+()[]{}").

(** A branch name without such a character.  For these names the regular
    expression ["graphql/(main|" + branchName + ")"] matches a URL exactly
    when the URL contains ["graphql/main"] or ["graphql/" + branchName],
    which is what [isOtherGraphqlResponse] searches for. *)
Definition plainBranchName (branchName : string) : bool :=
  forallb (fun c => negb (regexSyntaxCharacter c))
    (list_ascii_of_string branchName).

(** * Properties *)

(** ** Completions, [forEach] and [push] *)

Lemma bind_Return_inv {A B : Type} (c : completion A) (k : A -> completion B)
  (b : B) :
  (a ← c; k a) = Return b -> exists a, c = Return a /\ k a = Return b.
Proof.
  destruct c as [a|e]; simpl; intros H.
  - exists a. split; [reflexivity | exact H].
  - discriminate H.
Qed.

Lemma bind_Throw_inv {A B : Type} (c : completion A) (k : A -> completion B)
  (e : js_error) :
  (a ← c; k a) = Throw e ->
  c = Throw e \/ exists a, c = Return a /\ k a = Throw e.
Proof.
  destruct c as [a|e']; simpl; intros H.
  - right. exists a. split; [reflexivity | exact H].
  - left. by injection H as ->.
Qed.

(** A loop that pushes one computed element per item appends the mapped
    list to the array it started from. *)
Lemma forEach_push {A B : Type} (f : A -> completion B) (l : list A) :
  forall st : list B,
    forEach (fun x st => y ← f x; Return (push st y)) l st
    = (ys ← mapM_completion f l; Return (st ++ ys)).
Proof.
  induction l as [|x l IH]; intros st; simpl.
  - by rewrite app_nil_r.
  - destruct (f x) as [y|e]; simpl; [|reflexivity].
    rewrite IH. destruct (mapM_completion f l) as [ys|e]; simpl; [|reflexivity].
    unfold push. by rewrite <- app_assoc.
Qed.

Lemma mapM_completion_Return {A B : Type} (f : A -> completion B) (l : list A)
  (ys : list B) :
  mapM_completion f l = Return ys <-> Forall2 (fun x y => f x = Return y) l ys.
Proof.
  revert ys. induction l as [|x l IH]; intros ys; simpl.
  - split.
    + intros [= <-]. constructor.
    + intros H. by inversion H.
  - split.
    + intros H. apply bind_Return_inv in H as (y & Hy & H).
      apply bind_Return_inv in H as (ys' & Hys & [= <-]).
      constructor; [exact Hy | by apply IH].
    + intros H. inversion H as [|? y ? ys' Hy Hys]; subst.
      rewrite Hy. simpl. apply IH in Hys. by rewrite Hys.
Qed.

Lemma mapM_completion_Throw {A B : Type} (f : A -> completion B) (l : list A)
  (e : js_error) :
  mapM_completion f l = Throw e -> exists x, In x l /\ f x = Throw e.
Proof.
  induction l as [|x l IH]; simpl; [discriminate|].
  intros H. apply bind_Throw_inv in H as [H | (y & Hy & H)].
  - exists x. auto.
  - apply bind_Throw_inv in H as [H | (ys & _ & H)]; [|discriminate H].
    destruct (IH H) as (x' & Hin & Hx'). exists x'. auto.
Qed.

Lemma mapM_completion_total {A B : Type} (f : A -> completion B) (l : list A) :
  (forall x, In x l -> exists y, f x = Return y) ->
  exists ys, mapM_completion f l = Return ys.
Proof.
  induction l as [|x l IH]; intros H; simpl.
  - by exists [].
  - destruct (H x) as [y Hy]; [by left|]. rewrite Hy. simpl.
    destruct IH as [ys Hys]; [intros x' Hx'; apply H; by right|].
    rewrite Hys. simpl. by exists (y :: ys).
Qed.

(** ** Property access never fails on a truthy value *)

Lemma truthy_not_nullish (v : jsval) : truthy v = true -> nullish v = false.
Proof. by destruct v. Qed.

Lemma getProp_truthy (v : jsval) (key : string) :
  truthy v = true -> getProp v key = Return (property_of v key).
Proof. intros H. unfold getProp. by rewrite (truthy_not_nullish v H). Qed.

(** A falsy receiver has no truthy property: it is [undefined], [null], a
    boolean, a number or the empty string. *)
Lemma property_of_falsy (v : jsval) (key : string) :
  truthy v = false -> truthy (property_of v key) = false.
Proof.
  destruct v as [| |b|x|s|items|props]; try done.
  destruct s as [|c s]; [|done]. intros _. simpl.
  destruct (String.eqb key "length"); [reflexivity|].
  by destruct (array_index key).
Qed.

(** ** The create/edit form *)

Section FormStructureProperties.

Variable table : string -> ControlType.
Variable iGenericSchemaMapping : Type.

Variable schemas : list iNodeSchema.t.
Variable generics : list iGenericSchema.t.
Variable dropdownOptions : gmap string (list iPeerDropdownOption.t).
Variable schemaKindNameMap : gmap string string.
Variable genericSchemaMap : iGenericSchemaMapping.

Local Abbreviation deriveForm schema row :=
  (getFormStructureForCreateEdit table iGenericSchemaMapping schema schemas
     generics dropdownOptions schemaKindNameMap genericSchemaMap row).
Local Abbreviation relationshipField row :=
  (relationshipFormField schemas generics dropdownOptions schemaKindNameMap row).

(** The two loops amount to two traversals whose results are
    concatenated. *)
Lemma getFormStructureForCreateEdit_eq (schema : iNodeSchema.t) (row : jsval) :
  deriveForm (Some schema) row
  = (afs ← mapM_completion (attributeFormField table row) (attributesOf schema);
     rfs ← mapM_completion (relationshipField row)
             (attributeKindRelationships schema);
     Return (afs ++ rfs)).
Proof.
  unfold getFormStructureForCreateEdit, attributesOf, attributeKindRelationships.
  destruct (iNodeSchema.attributes schema) as [attrs|];
    destruct (iNodeSchema.relationships schema) as [rels|]; simpl;
    rewrite ?forEach_push; simpl.
  - destruct (mapM_completion _ attrs) as [afs|e]; simpl; [|reflexivity].
    rewrite forEach_push. by destruct (mapM_completion _ _).
  - destruct (mapM_completion _ attrs) as [afs|e]; simpl; [|reflexivity].
    by rewrite app_nil_r.
  - by destruct (mapM_completion _ _).
  - reflexivity.
Qed.

Lemma getFormStructureForCreateEdit_Return (schema : iNodeSchema.t)
  (row : jsval) (fields : list DynamicFieldData.t) :
  deriveForm (Some schema) row = Return fields ->
  exists afs rfs,
    fields = afs ++ rfs
    /\ Forall2 (fun a d => attributeFormField table row a = Return d)
         (attributesOf schema) afs
    /\ Forall2 (fun r d => relationshipField row r = Return d)
         (attributeKindRelationships schema) rfs.
Proof.
  rewrite getFormStructureForCreateEdit_eq. intros H.
  apply bind_Return_inv in H as (afs & Hafs & H).
  apply bind_Return_inv in H as (rfs & Hrfs & [= <-]).
  exists afs, rfs. split; [reflexivity|].
  split; by apply mapM_completion_Return.
Qed.

(** The descriptor at the position of an attribute is the one derived from
    that attribute. *)
Lemma attribute_descriptor (schema : iNodeSchema.t) (row : jsval)
  (fields : list DynamicFieldData.t) (i : nat) (a : AttributeSchema.t) :
  deriveForm (Some schema) row = Return fields ->
  attributesOf schema !! i = Some a ->
  exists d, fields !! i = Some d /\ attributeFormField table row a = Return d.
Proof.
  intros H Ha.
  apply getFormStructureForCreateEdit_Return in H as (afs & rfs & -> & HA & _).
  destruct (Forall2_lookup_l _ _ _ _ _ HA Ha) as (d & Hd & Hfd).
  exists d. split; [|exact Hfd].
  by apply lookup_app_l_Some.
Qed.

(** The descriptor of the [j]-th relationship of kind ["Attribute"] follows
    those of all attributes. *)
Lemma relationship_descriptor (schema : iNodeSchema.t) (row : jsval)
  (fields : list DynamicFieldData.t) (j : nat) (r : RelationshipSchema.t) :
  deriveForm (Some schema) row = Return fields ->
  attributeKindRelationships schema !! j = Some r ->
  exists d, fields !! (length (attributesOf schema) + j) = Some d
            /\ relationshipField row r = Return d.
Proof.
  intros H Hr.
  apply getFormStructureForCreateEdit_Return in H as (afs & rfs & -> & HA & HR).
  destruct (Forall2_lookup_l _ _ _ _ _ HR Hr) as (d & Hd & Hfd).
  exists d. split; [|exact Hfd].
  rewrite (Forall2_length _ _ _ HA).
  rewrite lookup_app_r by lia.
  by replace (length afs + j - length afs) with j by lia.
Qed.

(** Deriving the descriptor of an attribute never throws. *)
Lemma attributeFormField_total (row : jsval) (a : AttributeSchema.t) :
  exists d, attributeFormField table row a = Return d.
Proof.
  unfold attributeFormField.
  destruct (truthy row) eqn:Hrow; simpl; [|eauto].
  rewrite (getProp_truthy row _ Hrow). simpl.
  destruct (truthy (property_of row (AttributeSchema.name a))) eqn:Hv; [|eauto].
  rewrite (getProp_truthy _ _ Hv). simpl. eauto.
Qed.

Lemma relationshipFormField_Return (row : jsval) (r : RelationshipSchema.t)
  (d : DynamicFieldData.t) :
  relationshipField row r = Return d ->
  relationshipValue row r = Return (DynamicFieldData.value d)
  /\ DynamicFieldData.type d
     = (if String.eqb (RelationshipSchema.cardinality r) "many"
        then "multiselect"
        else if truthy_flag (RelationshipSchema.inherited r)
             then "select2step" else "select")
  /\ DynamicFieldData.label d
     = (if truthy_string (RelationshipSchema.label r)
        then default "" (RelationshipSchema.label r)
        else RelationshipSchema.name r).
Proof.
  unfold relationshipFormField. intros H.
  apply bind_Return_inv in H as (v & Hv & [= <-]). simpl. auto.
Qed.

Lemma attributeFormField_Return (row : jsval) (a : AttributeSchema.t)
  (d : DynamicFieldData.t) :
  attributeFormField table row a = Return d ->
  DynamicFieldData.type d
  = match AttributeSchema.enum a with
    | Some _ => "select"
    | None => table (AttributeSchema.kind a)
    end
  /\ DynamicFieldData.label d
     = (if truthy_string (AttributeSchema.label a)
        then default "" (AttributeSchema.label a)
        else AttributeSchema.name a).
Proof.
  unfold attributeFormField. intros H.
  apply bind_Return_inv in H as (v & Hv & [= <-]). simpl. auto.
Qed.

Lemma relationshipValue_undefined (r : RelationshipSchema.t) :
  relationshipValue JUndefined r = Return (JStr "").
Proof. reflexivity. Qed.


(** C1.  The list a call with a schema returns has one descriptor per
    attribute, in attribute order, followed by one descriptor per
    relationship of kind ["Attribute"], in relationship order, hence
    [attributes.length + relationships.filter(kind == "Attribute").length]
    descriptors; each descriptor is told by its field name and kind, which
    come from the attribute or relationship at its position.  A schema without
    relationships of kind ["Attribute"] always gets its list. *)
Theorem getFormStructureForCreateEdit_count_and_order
  (schema : iNodeSchema.t) (row : jsval) :
  (forall fields,
     deriveForm (Some schema) row = Return fields ->
     length fields
     = length (attributesOf schema)
       + length (attributeKindRelationships schema)
     /\ exists afs rfs,
          fields = afs ++ rfs
          /\ Forall2
               (fun a d =>
                  DynamicFieldData.name d = AttributeSchema.name a +:+ ".value"
                  /\ DynamicFieldData.kind d = AttributeSchema.kind a)
               (attributesOf schema) afs
          /\ Forall2
               (fun r d =>
                  DynamicFieldData.name d
                  = RelationshipSchema.name r +:+
                    (if String.eqb (RelationshipSchema.cardinality r) "one"
                     then ".id" else ".list")
                  /\ DynamicFieldData.kind d = "String")
               (attributeKindRelationships schema) rfs)
  /\ (attributeKindRelationships schema = [] ->
      exists fields,
        deriveForm (Some schema) row = Return fields
        /\ length fields = length (attributesOf schema)).
Proof.
  split.
  - intros fields H.
    destruct (getFormStructureForCreateEdit_Return _ _ _ H)
      as (afs & rfs & -> & HA & HR).
    split.
    { rewrite length_app.
      by rewrite (Forall2_length _ _ _ HA), (Forall2_length _ _ _ HR). }
    exists afs, rfs. split; [reflexivity|]. split.
    + eapply Forall2_impl; [exact HA|]. simpl. intros a d Had.
      unfold attributeFormField in Had.
      by apply bind_Return_inv in Had as (v & _ & [= <-]).
    + eapply Forall2_impl; [exact HR|]. simpl. intros r d Hrd.
      unfold relationshipFormField in Hrd.
      by apply bind_Return_inv in Hrd as (v & _ & [= <-]).
  - intros Hrels. rewrite getFormStructureForCreateEdit_eq, Hrels.
    destruct (mapM_completion_total (attributeFormField table row)
                (attributesOf schema)) as [afs Hafs];
      [intros a _; apply attributeFormField_total|].
    rewrite Hafs. simpl. exists (afs ++ []). split; [reflexivity|].
    rewrite app_nil_r. apply mapM_completion_Return in Hafs.
    by rewrite (Forall2_length _ _ _ Hafs).
Qed.

(** C3.  The descriptor of a relationship of kind ["Attribute"] has control
    type ["multiselect"] when the cardinality is ["many"], ["select2step"]
    when the cardinality is ["one"] and the relationship is inherited, and
    ["select"] for every other relationship of cardinality ["one"]. *)
Theorem relationship_control_type
  (schema : iNodeSchema.t) (row : jsval) (fields : list DynamicFieldData.t)
  (j : nat) (r : RelationshipSchema.t) :
  deriveForm (Some schema) row = Return fields ->
  attributeKindRelationships schema !! j = Some r ->
  exists d,
    fields !! (length (attributesOf schema) + j) = Some d
    /\ (RelationshipSchema.cardinality r = "many" ->
        DynamicFieldData.type d = "multiselect")
    /\ (RelationshipSchema.cardinality r = "one" ->
        truthy_flag (RelationshipSchema.inherited r) = true ->
        DynamicFieldData.type d = "select2step")
    /\ (RelationshipSchema.cardinality r = "one" ->
        truthy_flag (RelationshipSchema.inherited r) = false ->
        DynamicFieldData.type d = "select").
Proof.
  intros H Hr.
  destruct (relationship_descriptor _ _ _ _ _ H Hr) as (d & Hd & Hfd).
  apply relationshipFormField_Return in Hfd as (_ & Htype & _).
  exists d. split; [exact Hd|]. rewrite Htype.
  repeat split.
  - by intros ->.
  - by intros -> ->.
  - by intros -> ->.
Qed.

(** C4.  The descriptor of an attribute with a non-empty enum list has
    control type ["select"], whatever the declared kind; without an enum
    list the control type is the one the kind-to-control-type table gives
    for the declared kind. *)
Theorem attribute_control_type
  (schema : iNodeSchema.t) (row : jsval) (fields : list DynamicFieldData.t)
  (i : nat) (a : AttributeSchema.t) :
  deriveForm (Some schema) row = Return fields ->
  attributesOf schema !! i = Some a ->
  exists d,
    fields !! i = Some d
    /\ (forall enum, AttributeSchema.enum a = Some enum -> enum <> [] ->
        DynamicFieldData.type d = "select")
    /\ (AttributeSchema.enum a = None ->
        DynamicFieldData.type d = table (AttributeSchema.kind a)).
Proof.
  intros H Ha.
  destruct (attribute_descriptor _ _ _ _ _ H Ha) as (d & Hd & Hfd).
  apply attributeFormField_Return in Hfd as (Htype & _).
  exists d. split; [exact Hd|]. rewrite Htype.
  split.
  - by intros enum -> _.
  - by intros ->.
Qed.

(** C10.  The label of a descriptor is the label of its attribute or
    relationship when that label is present and truthy, and the name of the
    attribute or relationship otherwise. *)
Theorem descriptor_label
  (schema : iNodeSchema.t) (row : jsval) (fields : list DynamicFieldData.t) :
  deriveForm (Some schema) row = Return fields ->
  (forall i a, attributesOf schema !! i = Some a ->
     exists d,
       fields !! i = Some d
       /\ (truthy_string (AttributeSchema.label a) = false ->
           DynamicFieldData.label d = AttributeSchema.name a)
       /\ (forall l, AttributeSchema.label a = Some l ->
           truthy_string (Some l) = true ->
           DynamicFieldData.label d = l))
  /\ (forall j r, attributeKindRelationships schema !! j = Some r ->
        exists d,
          fields !! (length (attributesOf schema) + j) = Some d
          /\ (truthy_string (RelationshipSchema.label r) = false ->
              DynamicFieldData.label d = RelationshipSchema.name r)
          /\ (forall l, RelationshipSchema.label r = Some l ->
              truthy_string (Some l) = true ->
              DynamicFieldData.label d = l)).
Proof.
  intros H. split.
  - intros i a Ha.
    destruct (attribute_descriptor _ _ _ _ _ H Ha) as (d & Hd & Hfd).
    apply attributeFormField_Return in Hfd as (_ & Hlabel).
    exists d. split; [exact Hd|]. rewrite Hlabel. split.
    + by intros ->.
    + intros l -> Hl. by rewrite Hl.
  - intros j r Hr.
    destruct (relationship_descriptor _ _ _ _ _ H Hr) as (d & Hd & Hfd).
    apply relationshipFormField_Return in Hfd as (_ & _ & Hlabel).
    exists d. split; [exact Hd|]. rewrite Hlabel. split.
    + by intros ->.
    + intros l -> Hl. by rewrite Hl.
Qed.

(** C5.  When the row holds a (truthy) value under the name of a
    relationship, the initial value of its descriptor is the [id] of that
    value for cardinality ["one"] without inheritance, the value itself for
    cardinality ["one"] with inheritance, and for cardinality ["many"] the
    list of the [id]s of the elements of that value. *)
Theorem relationship_initial_value
  (schema : iNodeSchema.t) (row : jsval) (fields : list DynamicFieldData.t)
  (j : nat) (r : RelationshipSchema.t) (v : jsval) :
  deriveForm (Some schema) row = Return fields ->
  attributeKindRelationships schema !! j = Some r ->
  getProp row (RelationshipSchema.name r) = Return v ->
  truthy v = true ->
  exists d,
    fields !! (length (attributesOf schema) + j) = Some d
    /\ (RelationshipSchema.cardinality r = "one" ->
        truthy_flag (RelationshipSchema.inherited r) = false ->
        getProp v "id" = Return (DynamicFieldData.value d))
    /\ (RelationshipSchema.cardinality r = "one" ->
        truthy_flag (RelationshipSchema.inherited r) = true ->
        DynamicFieldData.value d = v)
    /\ (RelationshipSchema.cardinality r = "many" ->
        exists items ids,
          v = JArr items
          /\ Forall2 (fun item id => getProp item "id" = Return id) items ids
          /\ DynamicFieldData.value d = JArr ids).
Proof.
  intros H Hr Hv Htruthy.
  destruct (relationship_descriptor _ _ _ _ _ H Hr) as (d & Hd & Hfd).
  apply relationshipFormField_Return in Hfd as (Hval & _).
  exists d. split; [exact Hd|].
  assert (Hrow : truthy row = true).
  { destruct (truthy row) eqn:E; [reflexivity|].
    unfold getProp in Hv. destruct (nullish row); [discriminate Hv|].
    injection Hv as <-.
    by rewrite (property_of_falsy row _ E) in Htruthy. }
  unfold relationshipValue in Hval.
  rewrite Hrow, Hv in Hval. simpl in Hval. rewrite Htruthy in Hval.
  simpl in Hval.
  repeat split.
  - intros Hc Hi. rewrite Hc, Hi in Hval. exact Hval.
  - intros Hc Hi. rewrite Hc, Hi in Hval. simpl in Hval. congruence.
  - intros Hc. rewrite Hc in Hval. simpl in Hval.
    destruct v as [| | | | |items|]; try discriminate Hval.
    apply bind_Return_inv in Hval as (ids & Hids & [= Hd']).
    exists items, ids. split; [reflexivity|].
    split; [by apply mapM_completion_Return | by symmetry].
Qed.

(** C6.  Called without a schema, the deriver returns the empty list,
    whatever its other arguments, and throws nothing. *)
Theorem getFormStructureForCreateEdit_absent_schema (row : jsval) :
  deriveForm None row = Return [].
Proof. reflexivity. Qed.

End FormStructureProperties.

(** C2, as amended.  Two runs of the deriver give the same control type to
    two attributes that agree on their kind and on whether they carry an enum
    list, and to two relationships of kind ["Attribute"] that agree on their
    cardinality and inheritance flag: nothing else in the input matters, and
    every such attribute and relationship gets a control type. *)
Theorem control_type_determined
  (table : string -> ControlType) (iGenericSchemaMapping : Type)
  (schemas1 schemas2 : list iNodeSchema.t)
  (generics1 generics2 : list iGenericSchema.t)
  (dropdownOptions1 dropdownOptions2 : gmap string (list iPeerDropdownOption.t))
  (schemaKindNameMap1 schemaKindNameMap2 : gmap string string)
  (genericSchemaMap1 genericSchemaMap2 : iGenericSchemaMapping)
  (schema1 schema2 : iNodeSchema.t) (row1 row2 : jsval)
  (fields1 fields2 : list DynamicFieldData.t) :
  getFormStructureForCreateEdit table iGenericSchemaMapping (Some schema1)
    schemas1 generics1 dropdownOptions1 schemaKindNameMap1 genericSchemaMap1
    row1 = Return fields1 ->
  getFormStructureForCreateEdit table iGenericSchemaMapping (Some schema2)
    schemas2 generics2 dropdownOptions2 schemaKindNameMap2 genericSchemaMap2
    row2 = Return fields2 ->
  (forall i1 i2 a1 a2,
     attributesOf schema1 !! i1 = Some a1 ->
     attributesOf schema2 !! i2 = Some a2 ->
     AttributeSchema.kind a1 = AttributeSchema.kind a2 ->
     (is_Some (AttributeSchema.enum a1) <-> is_Some (AttributeSchema.enum a2)) ->
     exists d1 d2,
       fields1 !! i1 = Some d1 /\ fields2 !! i2 = Some d2
       /\ DynamicFieldData.type d1 = DynamicFieldData.type d2)
  /\ (forall j1 j2 r1 r2,
        attributeKindRelationships schema1 !! j1 = Some r1 ->
        attributeKindRelationships schema2 !! j2 = Some r2 ->
        RelationshipSchema.cardinality r1 = RelationshipSchema.cardinality r2 ->
        RelationshipSchema.inherited r1 = RelationshipSchema.inherited r2 ->
        exists d1 d2,
          fields1 !! (length (attributesOf schema1) + j1) = Some d1
          /\ fields2 !! (length (attributesOf schema2) + j2) = Some d2
          /\ DynamicFieldData.type d1 = DynamicFieldData.type d2).
Proof.
  intros H1 H2. split.
  - intros i1 i2 a1 a2 Ha1 Ha2 Hkind Henum.
    destruct (attribute_descriptor _ _ _ _ _ _ _ _ _ _ _ _ H1 Ha1)
      as (d1 & Hd1 & Hf1).
    destruct (attribute_descriptor _ _ _ _ _ _ _ _ _ _ _ _ H2 Ha2)
      as (d2 & Hd2 & Hf2).
    apply attributeFormField_Return in Hf1 as (Ht1 & _).
    apply attributeFormField_Return in Hf2 as (Ht2 & _).
    exists d1, d2. repeat split; [exact Hd1 | exact Hd2 |].
    rewrite Ht1, Ht2, Hkind.
    destruct (AttributeSchema.enum a1) as [e1|],
             (AttributeSchema.enum a2) as [e2|]; try reflexivity.
    + destruct Henum as [Henum _].
      destruct Henum as [? [=]]. by exists e1.
    + destruct Henum as [_ Henum].
      destruct Henum as [? [=]]. by exists e2.
  - intros j1 j2 r1 r2 Hr1 Hr2 Hcard Hinh.
    destruct (relationship_descriptor _ _ _ _ _ _ _ _ _ _ _ _ H1 Hr1)
      as (d1 & Hd1 & Hf1).
    destruct (relationship_descriptor _ _ _ _ _ _ _ _ _ _ _ _ H2 Hr2)
      as (d2 & Hd2 & Hf2).
    apply relationshipFormField_Return in Hf1 as (_ & Ht1 & _).
    apply relationshipFormField_Return in Hf2 as (_ & Ht2 & _).
    exists d1, d2. repeat split; [exact Hd1 | exact Hd2 |].
    by rewrite Ht1, Ht2, Hcard, Hinh.
Qed.

(** Whenever the table sends a kind to a control type other than
    ["select"], an enum list changes the control type of an attribute of that
    kind. *)
Lemma enum_overrides_table (table : string -> ControlType) (kind : string)
  (row1 row2 : jsval) (d1 d2 : DynamicFieldData.t) :
  table kind <> "select" ->
  attributeFormField table row1
    (AttributeSchema.mk "status" kind (Some [JStr "active"]) None None)
  = Return d1 ->
  attributeFormField table row2
    (AttributeSchema.mk "status" kind None None None)
  = Return d2 ->
  DynamicFieldData.type d1 <> DynamicFieldData.type d2.
Proof.
  intros Hk H1 H2.
  apply attributeFormField_Return in H1 as (-> & _).
  apply attributeFormField_Return in H2 as (-> & _).
  simpl. congruence.
Qed.

(** C2, as stated, does not hold: the kind of an attribute does not settle
    its control type.  With a table that makes ["Text"] a text input, the
    attribute [status] of kind ["Text"] is a ["select"] when it carries an
    enum list and a text input when it does not. *)
Lemma control_type_not_determined_by_kind :
  ~ (forall (table : string -> ControlType)
       (schema1 schema2 : iNodeSchema.t) (row1 row2 : jsval)
       (fields1 fields2 : list DynamicFieldData.t)
       (i1 i2 : nat) (a1 a2 : AttributeSchema.t)
       (d1 d2 : DynamicFieldData.t),
       getFormStructureForCreateEdit table unit (Some schema1) [] [] ∅ ∅ tt
         row1 = Return fields1 ->
       getFormStructureForCreateEdit table unit (Some schema2) [] [] ∅ ∅ tt
         row2 = Return fields2 ->
       attributesOf schema1 !! i1 = Some a1 ->
       attributesOf schema2 !! i2 = Some a2 ->
       fields1 !! i1 = Some d1 ->
       fields2 !! i2 = Some d2 ->
       AttributeSchema.kind a1 = AttributeSchema.kind a2 ->
       DynamicFieldData.type d1 = DynamicFieldData.type d2).
Proof.
  intros H.
  pose (s1 := iNodeSchema.mk "device" "Device" (Some [sampleStatus]) None
                None None).
  specialize (H sampleControlTypeTable s1 samplePlainSchema
                JUndefined JUndefined).
  specialize (H _ _ 0 0 sampleStatus samplePlainStatus _ _
                eq_refl eq_refl eq_refl eq_refl eq_refl eq_refl eq_refl).
  discriminate H.
Qed.

Lemma control_type_determined_witness :
  getFormStructureForCreateEdit sampleControlTypeTable unit (Some sampleSchema)
    [] [] sampleDropdownOptions sampleSchemaKindNameMap tt sampleRow
  = Return sampleFields
  /\ getFormStructureForCreateEdit sampleControlTypeTable unit
       (Some samplePlainSchema) [] [] ∅ ∅ tt JUndefined
     = Return samplePlainFields
  /\ (exists d1 d2,
        sampleFields !! 0 = Some d1 /\ samplePlainFields !! 0 = Some d2
        /\ DynamicFieldData.type d1 = DynamicFieldData.type d2)
  /\ (exists d1 d2,
        sampleFields !! (3 + 1) = Some d1
        /\ samplePlainFields !! (1 + 0) = Some d2
        /\ DynamicFieldData.type d1 = DynamicFieldData.type d2).
Proof.
  assert (H1 : getFormStructureForCreateEdit sampleControlTypeTable unit
                 (Some sampleSchema) [] [] sampleDropdownOptions
                 sampleSchemaKindNameMap tt sampleRow = Return sampleFields)
    by (vm_compute; reflexivity).
  assert (H2 : getFormStructureForCreateEdit sampleControlTypeTable unit
                 (Some samplePlainSchema) [] [] ∅ ∅ tt JUndefined
               = Return samplePlainFields)
    by (vm_compute; reflexivity).
  split; [exact H1|]. split; [exact H2|].
  destruct (control_type_determined _ _ _ _ _ _ _ _ _ _ _ _ _ _ _ _ _ _
              H1 H2) as [HA HR].
  split.
  - apply (HA 0 0 sampleName samplePlainStatus); reflexivity.
  - apply (HR 1 0 sampleTags sampleTags); reflexivity.
Defined.

Lemma relationship_control_type_witness :
  getFormStructureForCreateEdit sampleControlTypeTable unit (Some sampleSchema)
    [] [] sampleDropdownOptions sampleSchemaKindNameMap tt sampleRow
  = Return sampleFields
  /\ attributeKindRelationships sampleSchema !! 2 = Some sampleOwner
  /\ exists d,
       sampleFields !! (3 + 2) = Some d
       /\ DynamicFieldData.type d = "select2step".
Proof.
  assert (H : getFormStructureForCreateEdit sampleControlTypeTable unit
                (Some sampleSchema) [] [] sampleDropdownOptions
                sampleSchemaKindNameMap tt sampleRow = Return sampleFields)
    by (vm_compute; reflexivity).
  split; [exact H|]. split; [reflexivity|].
  destruct (relationship_control_type _ _ _ _ _ _ _ _ _ _ 2 sampleOwner
              H eq_refl) as (d & Hd & _ & Hinh & _).
  exists d. split; [exact Hd|]. by apply Hinh.
Defined.

Lemma attribute_control_type_witness :
  getFormStructureForCreateEdit sampleControlTypeTable unit (Some sampleSchema)
    [] [] sampleDropdownOptions sampleSchemaKindNameMap tt sampleRow
  = Return sampleFields
  /\ attributesOf sampleSchema !! 1 = Some sampleStatus
  /\ exists d,
       sampleFields !! 1 = Some d /\ DynamicFieldData.type d = "select".
Proof.
  assert (H : getFormStructureForCreateEdit sampleControlTypeTable unit
                (Some sampleSchema) [] [] sampleDropdownOptions
                sampleSchemaKindNameMap tt sampleRow = Return sampleFields)
    by (vm_compute; reflexivity).
  split; [exact H|]. split; [reflexivity|].
  destruct (attribute_control_type _ _ _ _ _ _ _ _ _ _ 1 sampleStatus
              H eq_refl) as (d & Hd & Henum & _).
  exists d. split; [exact Hd|]. by eapply Henum.
Defined.

Lemma descriptor_label_witness :
  getFormStructureForCreateEdit sampleControlTypeTable unit (Some sampleSchema)
    [] [] sampleDropdownOptions sampleSchemaKindNameMap tt sampleRow
  = Return sampleFields
  /\ (exists d, sampleFields !! 2 = Some d
                /\ DynamicFieldData.label d = "enabled")
  /\ (exists d, sampleFields !! (3 + 0) = Some d
                /\ DynamicFieldData.label d = "Site").
Proof.
  assert (H : getFormStructureForCreateEdit sampleControlTypeTable unit
                (Some sampleSchema) [] [] sampleDropdownOptions
                sampleSchemaKindNameMap tt sampleRow = Return sampleFields)
    by (vm_compute; reflexivity).
  split; [exact H|].
  destruct (descriptor_label _ _ _ _ _ _ _ _ _ _ H) as [HA HR].
  split.
  - destruct (HA 2 sampleEnabled eq_refl) as (d & Hd & Hname & _).
    exists d. split; [exact Hd|]. by apply Hname.
  - destruct (HR 0 sampleSite eq_refl) as (d & Hd & _ & Hlabel).
    exists d. split; [exact Hd|]. by apply Hlabel.
Defined.

Lemma relationship_initial_value_witness :
  getFormStructureForCreateEdit sampleControlTypeTable unit (Some sampleSchema)
    [] [] sampleDropdownOptions sampleSchemaKindNameMap tt sampleRow
  = Return sampleFields
  /\ attributeKindRelationships sampleSchema !! 1 = Some sampleTags
  /\ getProp sampleRow "tags"
     = Return (JArr [JObj [("id", JStr "t-1")]; JObj [("id", JStr "t-2")]])
  /\ exists d items ids,
       sampleFields !! (3 + 1) = Some d
       /\ JArr [JObj [("id", JStr "t-1")]; JObj [("id", JStr "t-2")]]
          = JArr items
       /\ Forall2 (fun item id => getProp item "id" = Return id) items ids
       /\ DynamicFieldData.value d = JArr ids.
Proof.
  assert (H : getFormStructureForCreateEdit sampleControlTypeTable unit
                (Some sampleSchema) [] [] sampleDropdownOptions
                sampleSchemaKindNameMap tt sampleRow = Return sampleFields)
    by (vm_compute; reflexivity).
  split; [exact H|]. split; [reflexivity|]. split; [reflexivity|].
  destruct (relationship_initial_value _ _ _ _ _ _ _ _ _ _ 1 sampleTags _
              H eq_refl eq_refl eq_refl) as (d & Hd & _ & _ & Hmany).
  destruct (Hmany eq_refl) as (items & ids & Hitems & Hids & Hval).
  by exists d, items, ids.
Defined.

(** ** The metadata-edit form *)

(** C7, as stated, does not hold: the metadata-edit form has four
    descriptors, not six. *)
Lemma getFormStructureForMetaEdit_not_six :
  length (getFormStructureForMetaEdit sampleRow MetaAttribute "name"
            [sampleSchema]) <> 6.
Proof. vm_compute. discriminate. Qed.

(** C7, as amended.  For every row, type, name and schema list the
    metadata-edit form consists of four descriptors: two two-step selects,
    for the owner and the source, followed by two checkboxes, for the
    visibility and the protection flag.  Neither the kind-to-control-type
    table nor any other part of the general deriver enters. *)
Theorem getFormStructureForMetaEdit_four_fields
  (row : jsval) (type : MetaEditType) (attributeOrRelationshipName : string)
  (schemaList : list iNodeSchema.t) :
  let prefix :=
    match type with
    | MetaAttribute => ""
    | MetaRelationship => "_relation__"
    end in
  exists owner source is_visible is_protected,
    getFormStructureForMetaEdit row type attributeOrRelationshipName schemaList
    = [owner; source; is_visible; is_protected]
    /\ DynamicFieldData.type owner = "select2step"
    /\ DynamicFieldData.type source = "select2step"
    /\ DynamicFieldData.type is_visible = "checkbox"
    /\ DynamicFieldData.type is_protected = "checkbox"
    /\ DynamicFieldData.name owner
       = attributeOrRelationshipName +:+ "." +:+ prefix +:+ "owner"
    /\ DynamicFieldData.name source
       = attributeOrRelationshipName +:+ "." +:+ prefix +:+ "source"
    /\ DynamicFieldData.name is_visible
       = attributeOrRelationshipName +:+ "." +:+ prefix +:+ "is_visible"
    /\ DynamicFieldData.name is_protected
       = attributeOrRelationshipName +:+ "." +:+ prefix +:+ "is_protected".
Proof.
  destruct type; unfold getFormStructureForMetaEdit; simpl;
    do 4 eexists; (split; [reflexivity|]); simpl; repeat split; reflexivity.
Qed.

(** ** The object-details query hook *)

Section ObjectDetailsProperties.

Variables Columns Tabs DocumentNode QueryResult : Type.
Variable PROFILE_KIND : string.
Variable TASK_OBJECT : string.
Variable getTabs : option IModelSchema -> Tabs.
Variable getSchemaObjectColumns : option IModelSchema -> Columns.
Variable isGeneric : IModelSchema -> bool.
Variable getObjectDetailsPaginated : ObjectDetailsParams Columns Tabs -> string.
Variable gql : string -> completion DocumentNode.
Variable useQuery : DocumentNode -> QueryHookOptions.t -> QueryResult.

(** C8.  While the schema is absent, the string handed to the GraphQL
    parser is the trivial query ["query { ok }"], whatever the query builder
    would produce, and the query is marked to be skipped. *)
Theorem useObjectDetails_absent_schema
  (generics : list iGenericSchema.t) (objectId : string) :
  objectDetailsQueryString Columns Tabs PROFILE_KIND TASK_OBJECT getTabs
    getSchemaObjectColumns isGeneric getObjectDetailsPaginated
    generics None objectId
  = "query { ok }"
  /\ useObjectDetails Columns Tabs DocumentNode QueryResult PROFILE_KIND
       TASK_OBJECT getTabs getSchemaObjectColumns isGeneric
       getObjectDetailsPaginated gql useQuery generics None objectId
     = (query ← gql "query { ok }";
        Return (useQuery query (QueryHookOptions.mk true true))).
Proof. split; reflexivity. Qed.

End ObjectDetailsProperties.

(** ** The branch-creation test helper *)

Lemma prefix_refl (s : string) : String.prefix s s = true.
Proof.
  induction s as [|c s IH]; simpl; [reflexivity|].
  destruct (ascii_dec c c) as [_|Hne]; [exact IH | by destruct Hne].
Qed.

Lemma includes_prefix (needle haystack : string) :
  String.prefix needle haystack = true -> includes needle haystack = true.
Proof. destruct haystack; cbn [includes]; intros ->; reflexivity. Qed.

Lemma prefix_app (s rest : string) : String.prefix s (s +:+ rest) = true.
Proof.
  induction s as [|c s IH]; simpl; [by destruct rest|].
  destruct (ascii_dec c c) as [_|Hne]; [exact IH | by destruct Hne].
Qed.

Lemma includes_app_middle (needle before after : string) :
  includes needle (before +:+ needle +:+ after) = true.
Proof.
  induction before as [|c before IH].
  - change (includes needle (needle +:+ after) = true).
    apply includes_prefix, prefix_app.
  - simpl. rewrite IH. apply orb_true_r.
Qed.

Lemma includes_app_r (needle before : string) :
  includes needle (before +:+ needle) = true.
Proof.
  induction before as [|c before IH].
  - apply includes_prefix, prefix_refl.
  - simpl. rewrite IH. apply orb_true_r.
Qed.

(** While the two responses are awaited, either the creation is still
    submitted and unanswered, or its answer has put the branch into the
    query string, where it stays. *)
Lemma awaitResponses_search (branchName name : string)
  (network : list Response.t) :
  forall (resolved1 resolved2 : bool) (page page' : Page.t),
    (if resolved1
     then Page.search page = "?branch=" +:+ name /\ Page.submitted page = None
     else Page.submitted page = Some name) ->
    awaitResponses branchName resolved1 resolved2 network page = Return page' ->
    Page.search page' = "?branch=" +:+ name
    /\ Page.location page' = Page.location page.
Proof.
  induction network as [|response network IH];
    intros resolved1 resolved2 page page' Hinv H; simpl in H.
  - destruct resolved1, resolved2; simpl in H; try discriminate H.
    injection H as <-. by destruct Hinv.
  - destruct (resolved1 && resolved2) eqn:Hboth.
    + apply andb_prop in Hboth as [-> ->].
      injection H as <-. by destruct Hinv.
    + apply IH in H.
      * destruct H as [Hs Hl]. split; [exact Hs|].
        rewrite Hl. unfold app_on_response.
        destruct (Page.submitted page); [|reflexivity].
        by destruct (isBranchCreateResponse response).
      * unfold app_on_response. destruct resolved1; simpl.
        -- destruct Hinv as [Hs Hn]. by rewrite Hn.
        -- rewrite Hinv.
           by destruct (isBranchCreateResponse response).
Qed.

Lemma awaitResponses_Throw (branchName : string) (network : list Response.t) :
  forall (resolved1 resolved2 : bool) (page : Page.t) (e : js_error),
    awaitResponses branchName resolved1 resolved2 network page = Throw e ->
    e = TimeoutError.
Proof.
  induction network as [|response network IH];
    intros resolved1 resolved2 page e H; simpl in H.
  - destruct (resolved1 && resolved2); [discriminate H | congruence].
  - destruct (resolved1 && resolved2); [discriminate H | by eapply IH].
Qed.

(** The two waits end without a timeout exactly when, among the responses
    still to come, each wait that has not yet resolved finds one it
    accepts. *)
Lemma awaitResponses_Return_iff (branchName : string)
  (network : list Response.t) :
  forall (resolved1 resolved2 : bool) (page : Page.t),
    (exists page',
       awaitResponses branchName resolved1 resolved2 network page
       = Return page')
    <-> (resolved1 || existsb isBranchCreateResponse network)
        && (resolved2 || existsb (isOtherGraphqlResponse branchName) network)
        = true.
Proof.
  induction network as [|response network IH];
    intros resolved1 resolved2 page; simpl.
  - rewrite !orb_false_r.
    destruct (resolved1 && resolved2); split; eauto; [by intros [? ?]|done].
  - destruct (resolved1 && resolved2) eqn:Hboth.
    + apply andb_prop in Hboth as [-> ->]. split; eauto.
    + rewrite IH. by rewrite !orb_assoc.
Qed.

(** C9.  In the branch-creation flow with the name ["test-branch"], when
    the two awaited responses arrive (the answer to [BranchCreate] and the
    answer to another operation on the GraphQL URL of [main] or of the new
    branch, both with status 200), the helper returns, its expectation on the
    URL holds, and the URL of the page contains ["?branch=test-branch"]. *)
Theorem createBranch_url (page : Page.t) (network : list Response.t) :
  existsb isBranchCreateResponse network = true ->
  existsb (isOtherGraphqlResponse "test-branch") network = true ->
  exists page',
    createBranch page "test-branch" network = Return page'
    /\ includes "?branch=test-branch" (page_url page') = true.
Proof.
  intros H1 H2. unfold createBranch.
  destruct (proj2 (awaitResponses_Return_iff "test-branch" network false false
                     (app_click_create
                        (app_fill_new_branch_name
                           (app_click_create_branch_button page)
                           "test-branch"))))
    as [page1 Hawait].
  { simpl. by rewrite H1, H2. }
  rewrite Hawait. simpl.
  apply (awaitResponses_search _ "test-branch") in Hawait as [Hs _];
    [|reflexivity].
  assert (Hurl : includes "?branch=test-branch" (page_url page1) = true).
  { unfold page_url. rewrite Hs. apply includes_app_r. }
  assert (Hexpect : includes "?branch=" (page_url page1) = true).
  { unfold page_url. rewrite Hs.
    apply (includes_app_middle "?branch=" _ "test-branch"). }
  rewrite Hexpect. by exists page1.
Qed.

Lemma createBranch_url_witness :
  existsb isBranchCreateResponse
    [Response.mk (Some "GetBranches") 200 "http://localhost:8080/graphql/main";
     Response.mk (Some "BranchCreate") 200 "http://localhost:8080/graphql/main";
     Response.mk None 304 "http://localhost:8080/favicon.ico"] = true
  /\ existsb (isOtherGraphqlResponse "test-branch")
       [Response.mk (Some "GetBranches") 200
          "http://localhost:8080/graphql/main";
        Response.mk (Some "BranchCreate") 200
          "http://localhost:8080/graphql/main";
        Response.mk None 304 "http://localhost:8080/favicon.ico"] = true
  /\ exists page',
       createBranch (Page.mk "http://localhost:8080/" "" false "" None)
         "test-branch"
         [Response.mk (Some "GetBranches") 200
            "http://localhost:8080/graphql/main";
          Response.mk (Some "BranchCreate") 200
            "http://localhost:8080/graphql/main";
          Response.mk None 304 "http://localhost:8080/favicon.ico"]
       = Return page'
       /\ includes "?branch=test-branch" (page_url page') = true.
Proof.
  split; [vm_compute; reflexivity|]. split; [vm_compute; reflexivity|].
  apply createBranch_url; vm_compute; reflexivity.
Defined.

(** A run of the flow in which both responses arrive. *)
Example createBranch_sample_run :
  createBranch (Page.mk "http://localhost:8080/" "" false "" None)
    "test-branch"
    [Response.mk (Some "GetBranches") 200 "http://localhost:8080/graphql/main";
     Response.mk (Some "BranchCreate") 200 "http://localhost:8080/graphql/main";
     Response.mk None 304 "http://localhost:8080/favicon.ico"]
  = Return (Page.mk "http://localhost:8080/" "?branch=test-branch" false
              "test-branch" None).
Proof. vm_compute; reflexivity. Qed.

(** * Further properties of the create/edit form *)

(** ** Strings *)

Lemma append_length (s t : string) :
  String.length (s +:+ t) = String.length s + String.length t.
Proof. induction s as [|c s IH]; simpl; [reflexivity | by rewrite IH]. Qed.

(** A common suffix can be cancelled. *)
Lemma append_inj_r (s1 s2 t : string) : s1 +:+ t = s2 +:+ t -> s1 = s2.
Proof.
  revert s2. induction s1 as [|c1 s1 IH]; intros [|c2 s2] H.
  - reflexivity.
  - apply (f_equal String.length) in H.
    rewrite !append_length in H. simpl in H. lia.
  - apply (f_equal String.length) in H.
    rewrite !append_length in H. simpl in H. lia.
  - change (String c1 (s1 +:+ t) = String c2 (s2 +:+ t)) in H.
    injection H as -> H. f_equal. by apply IH.
Qed.

Lemma last_char_append (s : string) (c : ascii) (t : string) :
  last_char (s +:+ String c t) = last_char (String c t).
Proof.
  induction s as [|c' s IH]; [reflexivity|].
  change (String c' s +:+ String c t) with (String c' (s +:+ String c t)).
  cbn [last_char]. rewrite IH.
  destruct (s +:+ String c t) eqn:E; [|reflexivity].
  apply (f_equal String.length) in E. rewrite append_length in E.
  simpl in E. lia.
Qed.

(** ** Lists *)

(** A list has no duplicates under [g] when it has none under [f] and [g]
    separates whatever [f] separates on that list. *)
Lemma NoDup_map_separate {A B C : Type} (f : A -> B) (g : A -> C) (l : list A) :
  (forall x y, In x l -> In y l -> g x = g y -> f x = f y) ->
  NoDup (map f l) -> NoDup (map g l).
Proof.
  induction l as [|x l IH]; intros Hsep Hnd; simpl; [constructor|].
  simpl in Hnd. apply NoDup_cons in Hnd as [Hx Hnd].
  apply NoDup_cons. split.
  - intros Hin. apply Hx.
    apply list_elem_of_In, in_map_iff in Hin as (y & Hy & Hyl).
    apply list_elem_of_In, in_map_iff. exists y. split; [|exact Hyl].
    apply Hsep; [by right | by left | by symmetry].
  - apply IH; [|exact Hnd].
    intros y z Hy Hz. apply Hsep; by right.
Qed.

Lemma Forall2_map_eq {A B C : Type} (P : A -> B -> Prop) (f : A -> C)
  (g : B -> C) (l : list A) (k : list B) :
  (forall x y, P x y -> g y = f x) ->
  Forall2 P l k -> map g k = map f l.
Proof.
  intros HP H. induction H as [|x y l k Hxy _ IH]; simpl; [reflexivity|].
  by rewrite (HP _ _ Hxy), IH.
Qed.

Lemma mapM_completion_Throw_intro {A B : Type} (f : A -> completion B)
  (l : list A) (x : A) (e : js_error) :
  In x l -> f x = Throw e -> exists e', mapM_completion f l = Throw e'.
Proof.
  induction l as [|y l IH]; simpl; [done|].
  intros [-> | Hin] Hx.
  - rewrite Hx. simpl. eauto.
  - destruct (f y) as [b|e1]; simpl; [|eauto].
    destruct (IH Hin Hx) as [e' ->]. simpl. eauto.
Qed.

Lemma getProp_not_nullish (v : jsval) (key : string) :
  nullish v = false -> getProp v key = Return (property_of v key).
Proof. intros H. unfold getProp. by rewrite H. Qed.

Lemma getProp_nullish (v : jsval) (key : string) :
  nullish v = true -> getProp v key = Throw TypeError.
Proof. intros H. unfold getProp. by rewrite H. Qed.

(** The [id]s of the elements of an array are read without an exception
    exactly when no element is [undefined] or [null]. *)
Lemma mapM_getProp_Return (key : string) (items : list jsval) :
  Forall (fun item => nullish item = false) items ->
  mapM_completion (fun item => getProp item key) items
  = Return (map (fun item => property_of item key) items).
Proof.
  induction 1 as [|item items Hitem _ IH]; [reflexivity|].
  cbn [mapM_completion map].
  rewrite (getProp_not_nullish _ _ Hitem), IH. reflexivity.
Qed.

Lemma mapM_getProp_Throw (key : string) (items : list jsval) :
  ~ Forall (fun item => nullish item = false) items ->
  mapM_completion (fun item => getProp item key) items = Throw TypeError.
Proof.
  induction items as [|item items IH]; intros Hnot.
  - destruct Hnot. constructor.
  - cbn [mapM_completion].
    destruct (nullish item) eqn:Hitem.
    + by rewrite (getProp_nullish _ _ Hitem).
    + rewrite (getProp_not_nullish _ _ Hitem), IH; [reflexivity|].
      intros Hall. apply Hnot. by constructor.
Qed.

Lemma Forall2_Forall_right {A B : Type} (P : A -> B -> Prop) (Q : B -> Prop)
  (l : list A) (k : list B) :
  (forall x y, P x y -> Q y) -> Forall2 P l k -> Forall Q k.
Proof. intros HPQ H. induction H; constructor; eauto. Qed.

(** ** What the two callbacks put into a descriptor *)

Lemma attributeFormField_inv (table : string -> ControlType) (row : jsval)
  (a : AttributeSchema.t) (d : DynamicFieldData.t) :
  attributeFormField table row a = Return d ->
  DynamicFieldData.name d = AttributeSchema.name a +:+ ".value"
  /\ DynamicFieldData.kind d = AttributeSchema.kind a
  /\ DynamicFieldData.value d
     = (if truthy row && truthy (property_of row (AttributeSchema.name a))
        then property_of (property_of row (AttributeSchema.name a)) "value"
        else JStr "")
  /\ DynamicFieldData.options d
     = map (fun entry => SelectOption.mk entry entry)
         (default [] (AttributeSchema.enum a))
  /\ DynamicFieldData.config d
     = Some (FieldConfig.mk
               (Some (match AttributeSchema.optional a with
                      | Some false => "Required"
                      | _ => ""
                      end))).
Proof.
  unfold attributeFormField. intros H.
  apply bind_Return_inv in H as (v & Hv & [= <-]). simpl.
  repeat split; [|by destruct (AttributeSchema.enum a)].
  destruct (truthy row) eqn:Hrow; simpl; [|congruence].
  rewrite (getProp_truthy _ _ Hrow) in Hv. simpl in Hv.
  destruct (truthy (property_of row (AttributeSchema.name a))) eqn:Hp;
    [|congruence].
  rewrite (getProp_truthy _ _ Hp) in Hv. congruence.
Qed.

Lemma relationshipFormField_inv
  (schemas : list iNodeSchema.t) (generics : list iGenericSchema.t)
  (dropdownOptions : gmap string (list iPeerDropdownOption.t))
  (schemaKindNameMap : gmap string string)
  (row : jsval) (r : RelationshipSchema.t) (d : DynamicFieldData.t) :
  relationshipFormField schemas generics dropdownOptions schemaKindNameMap
    row r = Return d ->
  DynamicFieldData.name d
  = RelationshipSchema.name r +:+
    (if String.eqb (RelationshipSchema.cardinality r) "one"
     then ".id" else ".list")
  /\ DynamicFieldData.kind d = "String"
  /\ DynamicFieldData.options d
     = relationshipOptions schemas generics dropdownOptions schemaKindNameMap r
  /\ DynamicFieldData.config d = None.
Proof.
  unfold relationshipFormField. intros H.
  by apply bind_Return_inv in H as (v & Hv & [= <-]).
Qed.

(** ** The initial value of a relationship, case by case *)

Lemma relationshipValue_empty (row : jsval) (r : RelationshipSchema.t) :
  truthy row = false
  \/ truthy (property_of row (RelationshipSchema.name r)) = false ->
  relationshipValue row r = Return (JStr "").
Proof.
  unfold relationshipValue. intros H.
  destruct (truthy row) eqn:Hrow; simpl; [|reflexivity].
  rewrite (getProp_truthy _ _ Hrow). simpl.
  destruct H as [H|H]; [discriminate H | by rewrite H].
Qed.

Lemma relationshipValue_one (row : jsval) (r : RelationshipSchema.t) :
  truthy row = true ->
  truthy (property_of row (RelationshipSchema.name r)) = true ->
  RelationshipSchema.cardinality r = "one" ->
  relationshipValue row r
  = Return (if truthy_flag (RelationshipSchema.inherited r)
            then property_of row (RelationshipSchema.name r)
            else property_of (property_of row (RelationshipSchema.name r)) "id").
Proof.
  unfold relationshipValue. intros Hrow Hv Hcard.
  rewrite Hrow. simpl. rewrite (getProp_truthy _ _ Hrow). simpl.
  rewrite Hv, Hcard. simpl.
  destruct (truthy_flag (RelationshipSchema.inherited r)); simpl;
    [reflexivity|].
  by rewrite (getProp_truthy _ _ Hv).
Qed.

Lemma relationshipValue_list (row : jsval) (r : RelationshipSchema.t) :
  truthy row = true ->
  truthy (property_of row (RelationshipSchema.name r)) = true ->
  RelationshipSchema.cardinality r <> "one" ->
  relationshipValue row r
  = match property_of row (RelationshipSchema.name r) with
    | JArr items =>
        ids ← mapM_completion (fun item => getProp item "id") items;
        Return (JArr ids)
    | _ => Throw TypeError
    end.
Proof.
  unfold relationshipValue. intros Hrow Hv Hcard.
  rewrite Hrow. simpl. rewrite (getProp_truthy _ _ Hrow). simpl.
  rewrite Hv. apply String.eqb_neq in Hcard. rewrite Hcard. reflexivity.
Qed.

(** Reading the initial value throws exactly when a truthy value that is not
    an array of objects stands where a list is expected, and then it is a
    TypeError. *)
Lemma relationshipValue_Throw_iff (row : jsval) (r : RelationshipSchema.t)
  (e : js_error) :
  relationshipValue row r = Throw e
  <-> e = TypeError
      /\ RelationshipSchema.cardinality r <> "one"
      /\ truthy row = true
      /\ truthy (property_of row (RelationshipSchema.name r)) = true
      /\ ~ (exists items,
              property_of row (RelationshipSchema.name r) = JArr items
              /\ Forall (fun item => nullish item = false) items).
Proof.
  destruct (truthy row) eqn:Hrow;
    [|rewrite relationshipValue_empty by auto; split;
      [discriminate | by intros (_ & _ & ? & _)]].
  destruct (truthy (property_of row (RelationshipSchema.name r))) eqn:Hv;
    [|rewrite relationshipValue_empty by auto; split;
      [discriminate | by intros (_ & _ & _ & ? & _)]].
  destruct (decide (RelationshipSchema.cardinality r = "one")) as [Hcard|Hcard].
  { rewrite relationshipValue_one by done. split;
      [discriminate | by intros (_ & ? & _)]. }
  rewrite relationshipValue_list by done.
  destruct (property_of row (RelationshipSchema.name r)) as [| | | | |items|]
    eqn:Hp;
    try (split; [intros [= <-]; repeat split; try done;
                 by intros (items & [=] & _)
                | by intros (-> & _)]).
  destruct (decide (Forall (fun item => nullish item = false) items))
    as [Hall|Hnot].
  - rewrite (mapM_getProp_Return _ _ Hall). simpl. split; [discriminate|].
    intros (_ & _ & _ & _ & Hno). destruct Hno. by exists items.
  - rewrite (mapM_getProp_Throw _ _ Hnot). simpl. split.
    + intros [= <-]. repeat split; try done.
      intros (items' & [= <-] & Hall). by apply Hnot.
    + by intros (-> & _).
Qed.

(** ** Descriptors of the returned list *)

Section FormStructureExtras.

Variable table : string -> ControlType.
Variable iGenericSchemaMapping : Type.

Variable schemas : list iNodeSchema.t.
Variable generics : list iGenericSchema.t.
Variable dropdownOptions : gmap string (list iPeerDropdownOption.t).
Variable schemaKindNameMap : gmap string string.
Variable genericSchemaMap : iGenericSchemaMapping.

Local Abbreviation deriveForm schema row :=
  (getFormStructureForCreateEdit table iGenericSchemaMapping schema schemas
     generics dropdownOptions schemaKindNameMap genericSchemaMap row).
Local Abbreviation relationshipField row :=
  (relationshipFormField schemas generics dropdownOptions schemaKindNameMap row).

(** X1.  The initial value of an attribute field is the empty string when
    the row is absent or falsy.  When the row is an object that has a
    property of its own under the attribute's name, the initial value is the
    [value] property of what is stored there if that is truthy, and the
    empty string if it is falsy. *)
Theorem attribute_initial_value
  (schema : iNodeSchema.t) (row : jsval) (fields : list DynamicFieldData.t)
  (i : nat) (a : AttributeSchema.t) :
  deriveForm (Some schema) row = Return fields ->
  attributesOf schema !! i = Some a ->
  exists d,
    fields !! i = Some d
    /\ (truthy row = false -> DynamicFieldData.value d = JStr "")
    /\ (forall props v,
          row = JObj props ->
          own_property props (AttributeSchema.name a) = v ->
          v <> JUndefined ->
          (truthy v = false -> DynamicFieldData.value d = JStr "")
          /\ (truthy v = true ->
              DynamicFieldData.value d = property_of v "value")).
Proof.
  intros H Ha.
  destruct (attribute_descriptor _ _ _ _ _ _ _ _ _ _ _ _ H Ha)
    as (d & Hd & Hfd).
  apply attributeFormField_inv in Hfd as (_ & _ & Hval & _).
  exists d. split; [exact Hd|]. rewrite Hval. split.
  - by intros ->.
  - intros props v -> Hv _. simpl. rewrite Hv. split; by intros ->.
Qed.

(** X2.  The options of an attribute field are its enum entries, one option
    per entry and in the order of the list, each entry serving as both name
    and id of its option; an attribute without enum list has no options. *)
Theorem attribute_options
  (schema : iNodeSchema.t) (row : jsval) (fields : list DynamicFieldData.t)
  (i : nat) (a : AttributeSchema.t) :
  deriveForm (Some schema) row = Return fields ->
  attributesOf schema !! i = Some a ->
  exists d,
    fields !! i = Some d
    /\ length (DynamicFieldData.options d)
       = length (default [] (AttributeSchema.enum a))
    /\ (forall k entry,
          default [] (AttributeSchema.enum a) !! k = Some entry ->
          DynamicFieldData.options d !! k = Some (SelectOption.mk entry entry))
    /\ (AttributeSchema.enum a = None -> DynamicFieldData.options d = []).
Proof.
  intros H Ha.
  destruct (attribute_descriptor _ _ _ _ _ _ _ _ _ _ _ _ H Ha)
    as (d & Hd & Hfd).
  apply attributeFormField_inv in Hfd as (_ & _ & _ & Hopt & _).
  exists d. split; [exact Hd|]. rewrite Hopt. repeat split.
  - apply length_map.
  - intros k entry Hk.
    change (map ?f ?l) with (f <$> l). by rewrite list_lookup_fmap, Hk.
  - by intros ->.
Qed.

(** X3.  An attribute field is marked ["Required"] exactly when the
    attribute says [optional: false]; with [optional] true or absent the
    mark is the empty string.  A relationship field carries no
    configuration at all. *)
Theorem descriptor_required
  (schema : iNodeSchema.t) (row : jsval) (fields : list DynamicFieldData.t) :
  deriveForm (Some schema) row = Return fields ->
  (forall i a, attributesOf schema !! i = Some a ->
     exists d required,
       fields !! i = Some d
       /\ DynamicFieldData.config d = Some (FieldConfig.mk (Some required))
       /\ (required = "Required" \/ required = "")
       /\ (required = "Required" <-> AttributeSchema.optional a = Some false))
  /\ (forall j r, attributeKindRelationships schema !! j = Some r ->
        exists d,
          fields !! (length (attributesOf schema) + j) = Some d
          /\ DynamicFieldData.config d = None).
Proof.
  intros H. split.
  - intros i a Ha.
    destruct (attribute_descriptor _ _ _ _ _ _ _ _ _ _ _ _ H Ha)
      as (d & Hd & Hfd).
    apply attributeFormField_inv in Hfd as (_ & _ & _ & _ & Hcfg).
    exists d. eexists. split; [exact Hd|]. split; [exact Hcfg|].
    destruct (AttributeSchema.optional a) as [[|]|]; split; auto;
      split; congruence.
  - intros j r Hr.
    destruct (relationship_descriptor _ _ _ _ _ _ _ _ _ _ _ _ H Hr)
      as (d & Hd & Hfd).
    apply relationshipFormField_inv in Hfd as (_ & _ & _ & Hcfg).
    by exists d.
Qed.

(** X4.  When the attributes of a schema have pairwise distinct names, and
    so have its relationships of kind ["Attribute"], the field names of the
    returned descriptors are pairwise distinct: the suffixes [.value], [.id]
    and [.list] keep attribute and relationship fields apart. *)
Theorem descriptor_names_distinct
  (schema : iNodeSchema.t) (row : jsval) (fields : list DynamicFieldData.t) :
  deriveForm (Some schema) row = Return fields ->
  NoDup (map AttributeSchema.name (attributesOf schema)) ->
  NoDup (map RelationshipSchema.name (attributeKindRelationships schema)) ->
  NoDup (map DynamicFieldData.name fields).
Proof.
  intros H HA HR.
  apply getFormStructureForCreateEdit_Return in H as (afs & rfs & -> & Ha & Hr).
  rewrite map_app.
  rewrite (Forall2_map_eq _ (fun a => AttributeSchema.name a +:+ ".value")
             DynamicFieldData.name _ _
             (fun a d Had => proj1 (attributeFormField_inv _ _ _ _ Had)) Ha).
  rewrite (Forall2_map_eq _
             (fun r => RelationshipSchema.name r +:+
                       (if String.eqb (RelationshipSchema.cardinality r) "one"
                        then ".id" else ".list"))
             DynamicFieldData.name _ _
             (fun r d Hrd =>
                proj1 (relationshipFormField_inv _ _ _ _ _ _ _ Hrd)) Hr).
  apply NoDup_app. repeat split.
  - apply (NoDup_map_separate AttributeSchema.name); [|exact HA].
    intros a1 a2 _ _. apply append_inj_r.
  - intros x Hx1 Hx2.
    apply list_elem_of_In, in_map_iff in Hx1 as (a & <- & _).
    apply list_elem_of_In, in_map_iff in Hx2 as (r & E & _).
    apply (f_equal last_char) in E.
    destruct (String.eqb (RelationshipSchema.cardinality r) "one");
      rewrite !last_char_append in E; discriminate E.
  - apply (NoDup_map_separate RelationshipSchema.name); [|exact HR].
    intros r1 r2 _ _ E.
    destruct (String.eqb (RelationshipSchema.cardinality r1) "one"),
             (String.eqb (RelationshipSchema.cardinality r2) "one");
      try (by apply append_inj_r in E);
      apply (f_equal last_char) in E;
      rewrite !last_char_append in E; discriminate E.
Qed.

(** X5.  A relationship field is a multi-select exactly when the
    cardinality is ["many"], and its name ends in [.id] for cardinality
    ["one"] and in [.list] for every other cardinality: a cardinality that
    is neither ["one"] nor ["many"] gives a [.list] field with a
    single-select control. *)
Theorem relationship_name_and_control
  (schema : iNodeSchema.t) (row : jsval) (fields : list DynamicFieldData.t)
  (j : nat) (r : RelationshipSchema.t) :
  deriveForm (Some schema) row = Return fields ->
  attributeKindRelationships schema !! j = Some r ->
  exists d,
    fields !! (length (attributesOf schema) + j) = Some d
    /\ DynamicFieldData.kind d = "String"
    /\ (DynamicFieldData.type d = "multiselect"
        <-> RelationshipSchema.cardinality r = "many")
    /\ (RelationshipSchema.cardinality r = "one" ->
        DynamicFieldData.name d = RelationshipSchema.name r +:+ ".id")
    /\ (RelationshipSchema.cardinality r <> "one" ->
        DynamicFieldData.name d = RelationshipSchema.name r +:+ ".list").
Proof.
  intros H Hr.
  destruct (relationship_descriptor _ _ _ _ _ _ _ _ _ _ _ _ H Hr)
    as (d & Hd & Hfd).
  destruct (relationshipFormField_inv _ _ _ _ _ _ _ Hfd)
    as (Hname & Hkind & _).
  apply relationshipFormField_Return in Hfd as (_ & Htype & _).
  exists d. split; [exact Hd|]. split; [exact Hkind|].
  rewrite Htype, Hname. repeat split.
  - destruct (String.eqb_spec (RelationshipSchema.cardinality r) "many")
      as [E|E]; [done|].
    by destruct (truthy_flag (RelationshipSchema.inherited r)).
  - by intros ->.
  - by intros ->.
  - intros Hc. apply String.eqb_neq in Hc. by rewrite Hc.
Qed.

(** X6.  Without a row, or with a falsy one, every field of the returned
    form starts out empty. *)
Theorem empty_row_empty_values
  (schema : iNodeSchema.t) (row : jsval) (fields : list DynamicFieldData.t) :
  truthy row = false ->
  deriveForm (Some schema) row = Return fields ->
  Forall (fun d => DynamicFieldData.value d = JStr "") fields.
Proof.
  intros Hrow H.
  apply getFormStructureForCreateEdit_Return in H as (afs & rfs & -> & HA & HR).
  apply Forall_app. split.
  - eapply Forall2_Forall_right; [|exact HA]. simpl.
    intros a d Had.
    apply attributeFormField_inv in Had as (_ & _ & -> & _).
    by rewrite Hrow.
  - eapply Forall2_Forall_right; [|exact HR]. simpl.
    intros r d Hrd.
    apply relationshipFormField_Return in Hrd as (Hval & _).
    rewrite relationshipValue_empty in Hval by auto. congruence.
Qed.

(** X7.  The deriver throws a TypeError, and returns no list, whenever a
    truthy row holds, as a property of its own under the name of a
    relationship of kind ["Attribute"] whose cardinality is not ["one"], a
    truthy value that is not an array of values other than [undefined] and
    [null]. *)
Theorem getFormStructureForCreateEdit_throws
  (schema : iNodeSchema.t) (row : jsval) (r : RelationshipSchema.t) :
  In r (attributeKindRelationships schema) ->
  RelationshipSchema.cardinality r <> "one" ->
  truthy row = true ->
  truthy (property_of row (RelationshipSchema.name r)) = true ->
  ~ (exists items,
       property_of row (RelationshipSchema.name r) = JArr items
       /\ Forall (fun item => nullish item = false) items) ->
  deriveForm (Some schema) row = Throw TypeError.
Proof.
  intros Hin Hcard Hrow Hv Hbad.
  assert (Hval : relationshipValue row r = Throw TypeError)
    by (by apply relationshipValue_Throw_iff).
  rewrite getFormStructureForCreateEdit_eq.
  destruct (mapM_completion_total (attributeFormField table row)
              (attributesOf schema)) as [afs ->];
    [intros a _; apply attributeFormField_total|].
  simpl.
  destruct (mapM_completion_Throw_intro (relationshipField row) _ r
              TypeError Hin) as [e' He'].
  { unfold relationshipFormField. by rewrite Hval. }
  rewrite He'. simpl.
  apply mapM_completion_Throw in He' as (r' & _ & Hr').
  unfold relationshipFormField in Hr'.
  apply bind_Throw_inv in Hr' as [Hr' | (v & _ & Hr')];
    [|discriminate Hr'].
  by apply relationshipValue_Throw_iff in Hr' as (-> & _).
Qed.

(** X21.  For every cardinality other than ["one"], inherited or not, an
    array found in the row under the name of the relationship becomes the
    list of the [id] properties of its elements, position by position, an
    element without [id] giving [undefined] and the empty array the empty
    list. *)
Theorem relationship_list_value
  (schema : iNodeSchema.t) (row : jsval) (fields : list DynamicFieldData.t)
  (j : nat) (r : RelationshipSchema.t) (items : list jsval) :
  deriveForm (Some schema) row = Return fields ->
  attributeKindRelationships schema !! j = Some r ->
  RelationshipSchema.cardinality r <> "one" ->
  truthy row = true ->
  property_of row (RelationshipSchema.name r) = JArr items ->
  exists d,
    fields !! (length (attributesOf schema) + j) = Some d
    /\ DynamicFieldData.value d
       = JArr (map (fun item => property_of item "id") items)
    /\ Forall (fun item => nullish item = false) items.
Proof.
  intros H Hr Hcard Hrow Hitems.
  destruct (relationship_descriptor _ _ _ _ _ _ _ _ _ _ _ _ H Hr)
    as (d & Hd & Hfd).
  apply relationshipFormField_Return in Hfd as (Hval & _).
  exists d. split; [exact Hd|].
  rewrite relationshipValue_list in Hval; [|done|by rewrite Hitems|done].
  rewrite Hitems in Hval.
  destruct (decide (Forall (fun item => nullish item = false) items))
    as [Hall|Hnot].
  - rewrite (mapM_getProp_Return _ _ Hall) in Hval. simpl in Hval.
    split; [congruence | exact Hall].
  - rewrite (mapM_getProp_Throw _ _ Hnot) in Hval. discriminate Hval.
Qed.

End FormStructureExtras.

(** ** The options of a relationship field *)

(** The loop over [used_by] appends, for each kind in turn, the option of
    the first schema of that kind, if there is one. *)
Lemma used_by_options (schemas : list iNodeSchema.t) (used_by : list string) :
  forall acc : list SelectOption.t,
    fold_left
      (fun options name =>
         match List.find (fun s => String.eqb (iNodeSchema.kind s) name)
                 schemas with
         | Some relatedSchema =>
             push options
               {| SelectOption.id := JStr (iNodeSchema.name relatedSchema);
                  SelectOption.name := JStr name |}
         | None => options
         end)
      used_by acc
    = acc ++ flat_map
               (fun name =>
                  match List.find
                          (fun s => String.eqb (iNodeSchema.kind s) name)
                          schemas with
                  | Some relatedSchema =>
                      [SelectOption.mk (JStr name)
                         (JStr (iNodeSchema.name relatedSchema))]
                  | None => []
                  end)
               used_by.
Proof.
  induction used_by as [|name used_by IH]; intros acc; simpl.
  - by rewrite app_nil_r.
  - rewrite IH. destruct (List.find _ schemas); simpl; [|reflexivity].
    unfold push. by rewrite <- app_assoc.
Qed.

Lemma flat_map_length_le {A B : Type} (f : A -> list B) (l : list A) :
  (forall x, length (f x) <= 1) -> length (flat_map f l) <= length l.
Proof.
  intros Hf. induction l as [|x l IH]; simpl; [lia|].
  rewrite length_app. specialize (Hf x). lia.
Qed.

Section RelationshipOptions.

Variable table : string -> ControlType.
Variable iGenericSchemaMapping : Type.

Variable schemas : list iNodeSchema.t.
Variable generics : list iGenericSchema.t.
Variable dropdownOptions : gmap string (list iPeerDropdownOption.t).
Variable schemaKindNameMap : gmap string string.
Variable genericSchemaMap : iGenericSchemaMapping.

Local Abbreviation deriveForm schema row :=
  (getFormStructureForCreateEdit table iGenericSchemaMapping schema schemas
     generics dropdownOptions schemaKindNameMap genericSchemaMap row).

(** X8.  For a relationship that is not inherited, when the kind-name map
    has an entry for the peer and the dropdown options have a list under
    that entry, the options are that list, entry by entry and in its order,
    with the display label as name; generics and schemas are not
    consulted. *)
Theorem relationship_dropdown_options
  (schema : iNodeSchema.t) (row : jsval) (fields : list DynamicFieldData.t)
  (j : nat) (r : RelationshipSchema.t) (key : string)
  (rows : list iPeerDropdownOption.t) :
  deriveForm (Some schema) row = Return fields ->
  attributeKindRelationships schema !! j = Some r ->
  truthy_flag (RelationshipSchema.inherited r) = false ->
  schemaKindNameMap !! RelationshipSchema.peer r = Some key ->
  dropdownOptions !! key = Some rows ->
  exists d,
    fields !! (length (attributesOf schema) + j) = Some d
    /\ length (DynamicFieldData.options d) = length rows
    /\ (forall k entry, rows !! k = Some entry ->
          DynamicFieldData.options d !! k
          = Some (SelectOption.mk
                    (JStr (iPeerDropdownOption.display_label entry))
                    (JStr (iPeerDropdownOption.id entry)))).
Proof.
  intros H Hr Hinh Hkey Hrows.
  destruct (relationship_descriptor _ _ _ _ _ _ _ _ _ _ _ _ H Hr)
    as (d & Hd & Hfd).
  apply relationshipFormField_inv in Hfd as (_ & _ & Hopt & _).
  exists d. split; [exact Hd|]. rewrite Hopt.
  unfold relationshipOptions, property_key.
  rewrite Hinh, Hkey. simpl. rewrite Hrows. split.
  - apply length_map.
  - intros k entry Hk.
    change (map ?f ?l) with (f <$> l). by rewrite list_lookup_fmap, Hk.
Qed.

(** X9.  For an inherited relationship the dropdown lists play no part:
    its options are those it would get if there were no dropdown list and
    no kind-name map at all. *)
Theorem inherited_relationship_ignores_dropdown
  (schema : iNodeSchema.t) (row : jsval) (fields : list DynamicFieldData.t)
  (j : nat) (r : RelationshipSchema.t) :
  deriveForm (Some schema) row = Return fields ->
  attributeKindRelationships schema !! j = Some r ->
  truthy_flag (RelationshipSchema.inherited r) = true ->
  exists d,
    fields !! (length (attributesOf schema) + j) = Some d
    /\ DynamicFieldData.options d = relationshipOptions schemas generics ∅ ∅ r.
Proof.
  intros H Hr Hinh.
  destruct (relationship_descriptor _ _ _ _ _ _ _ _ _ _ _ _ H Hr)
    as (d & Hd & Hfd).
  apply relationshipFormField_inv in Hfd as (_ & _ & Hopt & _).
  exists d. split; [exact Hd|]. rewrite Hopt.
  unfold relationshipOptions. by rewrite Hinh.
Qed.

(** X10.  For a relationship that is inherited or whose peer has no
    dropdown list, the options come from the first generic whose kind is the
    peer: an option is offered exactly for the kinds in its [used_by] list
    that some known schema has, with the kind as name and the name of the
    first schema of that kind as id, so there are at most as many options as
    entries of [used_by]; without such a generic there is no option. *)
Theorem relationship_generic_options
  (schema : iNodeSchema.t) (row : jsval) (fields : list DynamicFieldData.t)
  (j : nat) (r : RelationshipSchema.t) :
  deriveForm (Some schema) row = Return fields ->
  attributeKindRelationships schema !! j = Some r ->
  truthy_flag (RelationshipSchema.inherited r) = true
  \/ dropdownOptions !!
       default "undefined" (schemaKindNameMap !! RelationshipSchema.peer r)
     = None ->
  exists d,
    fields !! (length (attributesOf schema) + j) = Some d
    /\ match List.find (fun g => String.eqb (iGenericSchema.kind g)
                                   (RelationshipSchema.peer r)) generics with
       | Some generic =>
           (forall o,
              In o (DynamicFieldData.options d)
              <-> exists name relatedSchema,
                    In name (default [] (iGenericSchema.used_by generic))
                    /\ List.find
                         (fun s => String.eqb (iNodeSchema.kind s) name)
                         schemas = Some relatedSchema
                    /\ o = SelectOption.mk (JStr name)
                             (JStr (iNodeSchema.name relatedSchema)))
           /\ length (DynamicFieldData.options d)
              <= length (default [] (iGenericSchema.used_by generic))
       | None => DynamicFieldData.options d = []
       end.
Proof.
  intros H Hr Hcase.
  destruct (relationship_descriptor _ _ _ _ _ _ _ _ _ _ _ _ H Hr)
    as (d & Hd & Hfd).
  apply relationshipFormField_inv in Hfd as (_ & _ & Hopt & _).
  exists d. split; [exact Hd|]. rewrite Hopt.
  unfold relationshipOptions, property_key.
  assert (Hpeer :
    (if truthy_flag (RelationshipSchema.inherited r) then None
     else dropdownOptions !!
            default "undefined"
              (schemaKindNameMap !! RelationshipSchema.peer r)) = None).
  { destruct Hcase as [-> | Hnone]; [reflexivity|].
    by destruct (truthy_flag (RelationshipSchema.inherited r)). }
  rewrite Hpeer.
  destruct (List.find _ generics) as [generic|]; [|reflexivity].
  rewrite used_by_options. simpl. split.
  - intros o. rewrite in_flat_map. split.
    + intros (name & Hname & Ho).
      destruct (List.find _ schemas) as [relatedSchema|] eqn:Hfind;
        [|destruct Ho].
      destruct Ho as [<- | []]. by exists name, relatedSchema.
    + intros (name & relatedSchema & Hname & Hfind & ->).
      exists name. split; [exact Hname|]. rewrite Hfind. by left.
  - apply flat_map_length_le. intros name.
    destruct (List.find _ schemas); simpl; lia.
Qed.

End RelationshipOptions.

(** X11.  The descriptors depend on the schema only through its attributes
    and its relationships of kind ["Attribute"], and not at all on the
    generic-schema map: relationships of other kinds, the name, the kind and
    the ancestry of the schema leave the result unchanged. *)
Theorem getFormStructureForCreateEdit_depends_on
  (table : string -> ControlType) (iGenericSchemaMapping : Type)
  (schemas : list iNodeSchema.t) (generics : list iGenericSchema.t)
  (dropdownOptions : gmap string (list iPeerDropdownOption.t))
  (schemaKindNameMap : gmap string string)
  (genericSchemaMap genericSchemaMap' : iGenericSchemaMapping)
  (schema schema' : iNodeSchema.t) (row : jsval) :
  attributesOf schema = attributesOf schema' ->
  attributeKindRelationships schema = attributeKindRelationships schema' ->
  getFormStructureForCreateEdit table iGenericSchemaMapping (Some schema)
    schemas generics dropdownOptions schemaKindNameMap genericSchemaMap row
  = getFormStructureForCreateEdit table iGenericSchemaMapping (Some schema')
      schemas generics dropdownOptions schemaKindNameMap genericSchemaMap' row.
Proof.
  intros HA HR. rewrite !getFormStructureForCreateEdit_eq.
  by rewrite HA, HR.
Qed.

(** * Further properties of the metadata-edit form *)

(** X12.  The labels of the four metadata fields are their names with the
    underscores turned into single spaces and the leading ones dropped,
    whatever the row, the name and the schema list. *)
Theorem getFormStructureForMetaEdit_labels
  (row : jsval) (type : MetaEditType) (attributeOrRelationshipName : string)
  (schemaList : list iNodeSchema.t) :
  map DynamicFieldData.label
    (getFormStructureForMetaEdit row type attributeOrRelationshipName
       schemaList)
  = match type with
    | MetaAttribute =>
        ["owner"; "source"; "is visible"; "is protected"]
    | MetaRelationship =>
        ["relation owner"; "relation source";
         "relation is visible"; "relation is protected"]
    end.
Proof. destruct type; reflexivity. Qed.

(** X13.  The owner select offers exactly the schemas of the list that
    inherit from ["DataOwner"], the source select exactly those that inherit
    from ["DataSource"], each in the order of the list with the kind as name
    and the name as id; a schema without [inherit_from] is offered by
    neither, and the two checkboxes have no options. *)
Theorem getFormStructureForMetaEdit_options
  (row : jsval) (type : MetaEditType) (attributeOrRelationshipName : string)
  (schemaList : list iNodeSchema.t) :
  let heirs (related : string) :=
    map (fun schema => SelectOption.mk (JStr (iNodeSchema.kind schema))
                         (JStr (iNodeSchema.name schema)))
      (List.filter
         (fun schema => existsb (String.eqb related)
                          (default [] (iNodeSchema.inherit_from schema)))
         schemaList) in
  map DynamicFieldData.options
    (getFormStructureForMetaEdit row type attributeOrRelationshipName
       schemaList)
  = [heirs "DataOwner"; heirs "DataSource"; []; []].
Proof. destruct type; reflexivity. Qed.

(** X14.  The value of each metadata field is read from the row under the
    name of the attribute or relationship and then under the name of the
    field; when the row, or what it holds under that name, is [undefined] or
    [null], nothing is thrown and all four values are [undefined]. *)
Theorem getFormStructureForMetaEdit_values
  (row : jsval) (type : MetaEditType) (attributeOrRelationshipName : string)
  (schemaList : list iNodeSchema.t) :
  let metaFields :=
    match type with
    | MetaAttribute => ["owner"; "source"; "is_visible"; "is_protected"]
    | MetaRelationship =>
        ["_relation__owner"; "_relation__source";
         "_relation__is_visible"; "_relation__is_protected"]
    end in
  let values :=
    map DynamicFieldData.value
      (getFormStructureForMetaEdit row type attributeOrRelationshipName
         schemaList) in
  (nullish row = true
   \/ nullish (property_of row attributeOrRelationshipName) = true ->
   values = [JUndefined; JUndefined; JUndefined; JUndefined])
  /\ (nullish row = false ->
      nullish (property_of row attributeOrRelationshipName) = false ->
      values
      = map (property_of (property_of row attributeOrRelationshipName))
          metaFields).
Proof.
  split.
  - intros Hnull.
    assert (Hmeta : nullish (getPropOptional row attributeOrRelationshipName)
                    = true).
    { unfold getPropOptional. destruct (nullish row) eqn:Hrow; [reflexivity|].
      by destruct Hnull. }
    destruct type; unfold getFormStructureForMetaEdit; simpl;
      unfold getPropOptional at 1 3 5 7; by rewrite Hmeta.
  - intros Hrow Hmeta.
    destruct type; unfold getFormStructureForMetaEdit; simpl;
      unfold getPropOptional; by rewrite Hrow, Hmeta.
Qed.

(** * Further properties of the object-details query hook *)

Section ObjectDetailsExtras.

Variables Columns Tabs DocumentNode QueryResult : Type.
Variable PROFILE_KIND : string.
Variable TASK_OBJECT : string.
Variable getTabs : option IModelSchema -> Tabs.
Variable getSchemaObjectColumns : option IModelSchema -> Columns.
Variable isGeneric : IModelSchema -> bool.
Variable getObjectDetailsPaginated : ObjectDetailsParams Columns Tabs -> string.
Variable gql : string -> completion DocumentNode.
Variable useQuery : DocumentNode -> QueryHookOptions.t -> QueryResult.

(** X15.  With a schema, the hook parses the query built for the kind of
    the schema, the object id and the columns and tabs of the schema, and
    does not skip it.  Profiles are never queried for the profile kind
    itself, for a generic, or for a kind listed in [used_by] of the profile
    generic; for every other schema the [generate_profile] flag of the
    schema decides, as it is (possibly absent). *)
Theorem useObjectDetails_with_schema
  (generics : list iGenericSchema.t) (schema : IModelSchema)
  (objectId : string) :
  let excluded :=
    IModelSchema_kind schema = PROFILE_KIND
    \/ isGeneric schema = true
    \/ exists profileGenericSchema used_by,
         List.find (fun s => String.eqb (iGenericSchema.kind s) PROFILE_KIND)
           generics = Some profileGenericSchema
         /\ iGenericSchema.used_by profileGenericSchema = Some used_by
         /\ In (IModelSchema_kind schema) used_by in
  exists queryProfiles,
    useObjectDetails Columns Tabs DocumentNode QueryResult PROFILE_KIND
      TASK_OBJECT getTabs getSchemaObjectColumns isGeneric
      getObjectDetailsPaginated gql useQuery generics (Some schema) objectId
    = (query ← gql (getObjectDetailsPaginated
                      (mkObjectDetailsParams Columns Tabs
                         (IModelSchema_kind schema) TASK_OBJECT
                         (getSchemaObjectColumns (Some schema))
                         (getTabs (Some schema)) objectId queryProfiles));
       Return (useQuery query (QueryHookOptions.mk false true)))
    /\ (excluded -> queryProfiles = Some false)
    /\ (~ excluded -> queryProfiles = IModelSchema_generate_profile schema).
Proof.
  intros excluded. subst excluded.
  unfold useObjectDetails, objectDetailsQueryString.
  eexists. split; [reflexivity|].
  destruct (String.eqb_spec (IModelSchema_kind schema) PROFILE_KIND)
    as [Hk|Hk]; simpl.
  { rewrite andb_false_r. simpl. split; [done|]. intros Hn. destruct Hn. auto. }
  destruct (isGeneric schema) eqn:Hg; simpl.
  { rewrite !andb_false_r. split; [done|]. intros Hn. destruct Hn. auto. }
  rewrite !andb_true_r.
  destruct (List.find _ generics) as [g|] eqn:Hfind; simpl.
  - destruct (iGenericSchema.used_by g) as [used_by|] eqn:Hused; simpl.
    + destruct (existsb _ used_by) eqn:Hex; simpl.
      * split; [done|]. intros Hn. destruct Hn. right. right.
        exists g, used_by. repeat split; try done.
        apply existsb_exists in Hex as (k & Hin & Hk').
        apply String.eqb_eq in Hk'. by subst k.
      * split; [|done].
        intros [?|[?|(g' & used_by' & [= <-] & Hu & Hin)]];
          [done | done |].
        rewrite Hused in Hu. injection Hu as <-.
        assert (existsb (String.eqb (IModelSchema_kind schema)) used_by = true)
          as Hex'; [|congruence].
        apply existsb_exists. exists (IModelSchema_kind schema).
        split; [exact Hin | apply String.eqb_refl].
    + split; [|done].
      intros [?|[?|(g' & used_by' & [= <-] & Hu & _)]]; [done | done |].
      congruence.
  - split; [|done].
    intros [?|[?|(g' & used_by' & [=] & _)]]; done.
Qed.

End ObjectDetailsExtras.

(** * Further properties of the branch-creation helper *)

(** X16.  No response is accepted by both waits, so for a branch name
    without regular-expression operators a network that delivers fewer than
    two responses always makes the helper time out. *)
Theorem createBranch_needs_two_responses
  (page : Page.t) (branchName : string) (network : list Response.t) :
  plainBranchName branchName = true ->
  length network <= 1 ->
  (forall response,
     isBranchCreateResponse response = true ->
     isOtherGraphqlResponse branchName response = false)
  /\ createBranch page branchName network = Throw TimeoutError.
Proof.
  intros _ Hlen.
  assert (Hexcl : forall response,
            isBranchCreateResponse response = true ->
            isOtherGraphqlResponse branchName response = false).
  { intros response. unfold isBranchCreateResponse, isOtherGraphqlResponse.
    by destruct (bool_decide _). }
  split; [exact Hexcl|].
  unfold createBranch.
  destruct (awaitResponses _ _ _ _ _) as [page'|e] eqn:Hawait.
  - assert (Hres : exists p, awaitResponses branchName false false network
                               (app_click_create
                                  (app_fill_new_branch_name
                                     (app_click_create_branch_button page)
                                     branchName)) = Return p) by eauto.
    apply awaitResponses_Return_iff in Hres.
    destruct network as [|response [|? ?]]; simpl in *; [done| |lia].
    rewrite !orb_false_r in Hres. apply andb_prop in Hres as [H1 H2].
    rewrite (Hexcl _ H1) in H2. discriminate H2.
  - simpl. by apply awaitResponses_Throw in Hawait as ->.
Qed.

(** X17.  For a branch name without regular-expression operators the
    helper times out exactly when the responses lack a [BranchCreate]
    response with status 200 or lack a response with status 200 to another
    operation on the GraphQL URL of [main] or of the new branch; the order in
    which the two arrive plays no part. *)
Theorem createBranch_timeout_iff
  (page : Page.t) (branchName : string) (network : list Response.t) :
  plainBranchName branchName = true ->
  (createBranch page branchName network = Throw TimeoutError
   <-> existsb isBranchCreateResponse network
       && existsb (isOtherGraphqlResponse branchName) network
       = false).
Proof.
  intros _. unfold createBranch.
  pose proof (awaitResponses_Return_iff branchName network false false
                (app_click_create
                   (app_fill_new_branch_name
                      (app_click_create_branch_button page) branchName)))
    as Hiff.
  simpl in Hiff.
  destruct (awaitResponses _ _ _ _ _) as [page'|e] eqn:Hawait; simpl.
  - assert (Hres : existsb isBranchCreateResponse network
                   && existsb (isOtherGraphqlResponse branchName) network
                   = true) by (apply Hiff; eauto).
    rewrite Hres. split; [|discriminate].
    by destruct (includes "?branch=" (page_url page')).
  - apply awaitResponses_Throw in Hawait as ->. split; [|reflexivity].
    intros _. apply not_true_is_false. intros Hres.
    apply Hiff in Hres as [page' Hp]. discriminate Hp.
Qed.

Lemma awaitResponses_app (branchName : string) (network extra : list Response.t) :
  forall (resolved1 resolved2 : bool) (page page' : Page.t),
    awaitResponses branchName resolved1 resolved2 network page = Return page' ->
    awaitResponses branchName resolved1 resolved2 (network ++ extra) page
    = Return page'.
Proof.
  induction network as [|response network IH];
    intros resolved1 resolved2 page page' H; simpl in *.
  - destruct (resolved1 && resolved2) eqn:Hboth; [|discriminate H].
    destruct extra; simpl; by rewrite Hboth.
  - destruct (resolved1 && resolved2); [exact H | by apply IH].
Qed.

(** X18.  Once both waits have resolved the helper stops listening:
    responses that arrive after a successful run change neither its outcome
    nor the page it returns. *)
Theorem createBranch_ignores_later_responses
  (page : Page.t) (branchName : string) (network extra : list Response.t)
  (page' : Page.t) :
  createBranch page branchName network = Return page' ->
  createBranch page branchName (network ++ extra) = Return page'.
Proof.
  unfold createBranch. intros H.
  apply bind_Return_inv in H as (page1 & Hawait & H).
  by rewrite (awaitResponses_app _ _ extra _ _ _ _ Hawait).
Qed.

(** * Properties of the user-profile screen *)

(** X19.  Each tab of the tab bar, addressed by its label, gets a panel of
    its own, and a panel other than the profile panel is shown only for the
    label of one of these tabs: an absent or unknown tab shows the profile
    panel, and so does the (lower-case) name of every tab. *)
Theorem renderContent_tabs :
  (forall t1 t2, In t1 tabs -> In t2 tabs ->
     renderContent (Some (Tab.label t1)) = renderContent (Some (Tab.label t2)) ->
     t1 = t2)
  /\ (forall tab, renderContent tab <> TabProfile ->
        exists t, In t tabs /\ tab = Some (Tab.label t))
  /\ (forall t, In t tabs -> renderContent (Some (Tab.name t)) = TabProfile).
Proof.
  repeat split.
  - intros t1 t2 H1 H2.
    simpl in H1, H2.
    destruct H1 as [<-|[<-|[<-|[<-|[]]]]];
      destruct H2 as [<-|[<-|[<-|[<-|[]]]]];
      try reflexivity; vm_compute; discriminate.
  - intros [tab|]; [|done]. unfold renderContent.
    destruct (String.eqb_spec tab PROFILE_TABS.TOKENS) as [->|_].
    { intros _. exists (Tab.mk PROFILE_TABS.TOKENS "tokens").
      split; [simpl; auto | reflexivity]. }
    destruct (String.eqb_spec tab PROFILE_TABS.ACCOUNT) as [->|_].
    { intros _. exists (Tab.mk PROFILE_TABS.ACCOUNT "account").
      split; [simpl; auto | reflexivity]. }
    destruct (String.eqb_spec tab PROFILE_TABS.PREFERENCES) as [->|_]; [|done].
    intros _. exists (Tab.mk PROFILE_TABS.PREFERENCES "preferences").
    split; [simpl; auto | reflexivity].
  - intros t Ht. simpl in Ht.
    destruct Ht as [<-|[<-|[<-|[<-|[]]]]]; reflexivity.
Qed.

(** * Properties of the screenshot helper *)

(** X20.  The helper does nothing when [UPDATE_DOCS_SCREENSHOTS] is unset
    or empty, and for every other value of the variable (["0"] and
    ["false"] included) it waits for the network to be idle and then takes
    one screenshot; two file names share a screenshot path only when they
    are the same name. *)
Theorem saveScreenshotForDocs_gate_and_path
  (UPDATE_DOCS_SCREENSHOTS : option string) (filename filename' : string) :
  (saveScreenshotForDocs UPDATE_DOCS_SCREENSHOTS filename = []
   <-> UPDATE_DOCS_SCREENSHOTS = None \/ UPDATE_DOCS_SCREENSHOTS = Some "")
  /\ (saveScreenshotForDocs UPDATE_DOCS_SCREENSHOTS filename <> [] ->
      exists path,
        saveScreenshotForDocs UPDATE_DOCS_SCREENSHOTS filename
        = [WaitForLoadState "networkidle"; Screenshot path "disabled"]
        /\ (saveScreenshotForDocs UPDATE_DOCS_SCREENSHOTS filename'
            = [WaitForLoadState "networkidle"; Screenshot path "disabled"] ->
            filename' = filename)).
Proof.
  unfold saveScreenshotForDocs.
  destruct UPDATE_DOCS_SCREENSHOTS as [[|c v]|]; simpl.
  - split; [split; auto | done].
  - split.
    + split; [discriminate | by intros [[=]|[=]]].
    + intros _. eexists. split; [reflexivity|].
      intros [= E]. apply (inj (String.append _)) in E.
      by apply append_inj_r in E.
  - split; [split; auto | done].
Qed.

(** * The properties at work on the sample data *)

Lemma sampleFields_derived :
  getFormStructureForCreateEdit sampleControlTypeTable unit (Some sampleSchema)
    [] [] sampleDropdownOptions sampleSchemaKindNameMap tt sampleRow
  = Return sampleFields.
Proof. vm_compute; reflexivity. Qed.

Lemma sampleGenericFields_derived :
  getFormStructureForCreateEdit sampleControlTypeTable unit (Some sampleSchema)
    [sampleGroupSchema; sampleAccountSchema] [sampleGeneric]
    sampleDropdownOptions sampleSchemaKindNameMap tt sampleRow
  = Return sampleGenericFields.
Proof. vm_compute; reflexivity. Qed.

Lemma attribute_initial_value_witness :
  attributesOf sampleSchema !! 0 = Some sampleName
  /\ exists d,
       sampleFields !! 0 = Some d
       /\ DynamicFieldData.value d = JStr "atl1-edge1".
Proof.
  split; [reflexivity|].
  destruct (attribute_initial_value _ _ _ _ _ _ _ _ _ _ 0 sampleName
              sampleFields_derived eq_refl) as (d & Hd & _ & Hval).
  exists d. split; [exact Hd|].
  destruct (Hval _ (JObj [("value", JStr "atl1-edge1")]) eq_refl eq_refl
              ltac:(discriminate)) as [_ Htruthy].
  by rewrite Htruthy.
Defined.

Lemma attribute_options_witness :
  attributesOf sampleSchema !! 1 = Some sampleStatus
  /\ exists d,
       sampleFields !! 1 = Some d
       /\ length (DynamicFieldData.options d) = 2
       /\ DynamicFieldData.options d !! 1
          = Some (SelectOption.mk (JStr "down") (JStr "down")).
Proof.
  split; [reflexivity|].
  destruct (attribute_options _ _ _ _ _ _ _ _ _ _ 1 sampleStatus
              sampleFields_derived eq_refl) as (d & Hd & Hlen & Hopt & _).
  exists d. split; [exact Hd|]. split; [exact Hlen|].
  by apply (Hopt 1 (JStr "down")).
Defined.

Lemma descriptor_required_witness :
  (exists d,
     sampleFields !! 0 = Some d
     /\ DynamicFieldData.config d = Some (FieldConfig.mk (Some "Required")))
  /\ (exists d,
        sampleFields !! (3 + 0) = Some d /\ DynamicFieldData.config d = None).
Proof.
  destruct (descriptor_required _ _ _ _ _ _ _ _ _ _ sampleFields_derived)
    as [HA HR].
  split.
  - destruct (HA 0 sampleName eq_refl) as (d & required & Hd & Hcfg & _ & Hreq).
    exists d. split; [exact Hd|]. rewrite Hcfg.
    by rewrite (proj2 Hreq eq_refl).
  - exact (HR 0 sampleSite eq_refl).
Defined.

Lemma descriptor_names_distinct_witness :
  NoDup (map AttributeSchema.name (attributesOf sampleSchema))
  /\ NoDup (map RelationshipSchema.name
              (attributeKindRelationships sampleSchema))
  /\ NoDup (map DynamicFieldData.name sampleFields).
Proof.
  assert (HA : NoDup (map AttributeSchema.name (attributesOf sampleSchema)))
    by (apply (bool_decide_unpack _); vm_compute; reflexivity).
  assert (HR : NoDup (map RelationshipSchema.name
                        (attributeKindRelationships sampleSchema)))
    by (apply (bool_decide_unpack _); vm_compute; reflexivity).
  split; [exact HA|]. split; [exact HR|].
  exact (descriptor_names_distinct _ _ _ _ _ _ _ _ _ _
           sampleFields_derived HA HR).
Defined.

Lemma relationship_name_and_control_witness :
  attributeKindRelationships sampleSchema !! 1 = Some sampleTags
  /\ exists d,
       sampleFields !! (3 + 1) = Some d
       /\ DynamicFieldData.type d = "multiselect"
       /\ DynamicFieldData.name d = "tags.list".
Proof.
  split; [reflexivity|].
  destruct (relationship_name_and_control _ _ _ _ _ _ _ _ _ _ 1 sampleTags
              sampleFields_derived eq_refl)
    as (d & Hd & _ & Htype & _ & Hlist).
  exists d. split; [exact Hd|]. split.
  - by apply Htype.
  - by rewrite Hlist.
Defined.

Lemma empty_row_empty_values_witness :
  truthy JUndefined = false
  /\ getFormStructureForCreateEdit sampleControlTypeTable unit
       (Some samplePlainSchema) [] [] ∅ ∅ tt JUndefined
     = Return samplePlainFields
  /\ Forall (fun d => DynamicFieldData.value d = JStr "") samplePlainFields.
Proof.
  assert (H : getFormStructureForCreateEdit sampleControlTypeTable unit
                (Some samplePlainSchema) [] [] ∅ ∅ tt JUndefined
              = Return samplePlainFields)
    by (vm_compute; reflexivity).
  split; [reflexivity|]. split; [exact H|].
  exact (empty_row_empty_values sampleControlTypeTable unit [] [] ∅ ∅ tt
           samplePlainSchema JUndefined samplePlainFields eq_refl H).
Defined.

Lemma getFormStructureForCreateEdit_throws_witness :
  In sampleTags (attributeKindRelationships sampleSchema)
  /\ truthy (property_of sampleBadRow "tags") = true
  /\ getFormStructureForCreateEdit sampleControlTypeTable unit
       (Some sampleSchema) [] [] sampleDropdownOptions sampleSchemaKindNameMap
       tt sampleBadRow
     = Throw TypeError.
Proof.
  assert (Hin : In sampleTags (attributeKindRelationships sampleSchema))
    by (simpl; auto).
  split; [exact Hin|]. split; [reflexivity|].
  apply (getFormStructureForCreateEdit_throws _ _ _ _ _ _ _ _ _ sampleTags);
    [exact Hin | discriminate | reflexivity | reflexivity |].
  intros (items & Hitems & _). discriminate Hitems.
Defined.

Lemma relationship_dropdown_options_witness :
  attributeKindRelationships sampleSchema !! 0 = Some sampleSite
  /\ sampleSchemaKindNameMap !! "Location" = Some "location"
  /\ sampleDropdownOptions !! "location"
     = Some [iPeerDropdownOption.mk "s-1" "atl1"]
  /\ exists d,
       sampleFields !! (3 + 0) = Some d
       /\ DynamicFieldData.options d !! 0
          = Some (SelectOption.mk (JStr "atl1") (JStr "s-1")).
Proof.
  assert (Hkey : sampleSchemaKindNameMap !! "Location" = Some "location")
    by (vm_compute; reflexivity).
  assert (Hrows : sampleDropdownOptions !! "location"
                  = Some [iPeerDropdownOption.mk "s-1" "atl1"])
    by (vm_compute; reflexivity).
  split; [reflexivity|]. split; [exact Hkey|]. split; [exact Hrows|].
  destruct (relationship_dropdown_options _ _ _ _ _ _ _ _ _ _ 0 sampleSite
              "location" [iPeerDropdownOption.mk "s-1" "atl1"]
              sampleFields_derived eq_refl eq_refl Hkey Hrows)
    as (d & Hd & _ & Hopt).
  exists d. split; [exact Hd|].
  by apply (Hopt 0 (iPeerDropdownOption.mk "s-1" "atl1")).
Defined.

Lemma inherited_relationship_ignores_dropdown_witness :
  attributeKindRelationships sampleSchema !! 2 = Some sampleOwner
  /\ exists d,
       sampleGenericFields !! (3 + 2) = Some d
       /\ DynamicFieldData.options d
          = relationshipOptions [sampleGroupSchema; sampleAccountSchema]
              [sampleGeneric] ∅ ∅ sampleOwner.
Proof.
  split; [reflexivity|].
  exact (inherited_relationship_ignores_dropdown _ _ _ _ _ _ _ _ _ _ 2
           sampleOwner sampleGenericFields_derived eq_refl eq_refl).
Defined.

Lemma relationship_generic_options_witness :
  attributeKindRelationships sampleSchema !! 2 = Some sampleOwner
  /\ exists d,
       sampleGenericFields !! (3 + 2) = Some d
       /\ In (SelectOption.mk (JStr "Account") (JStr "account"))
            (DynamicFieldData.options d)
       /\ length (DynamicFieldData.options d) <= 3.
Proof.
  split; [reflexivity|].
  destruct (relationship_generic_options _ _ _ _ _ _ _ _ _ _ 2 sampleOwner
              sampleGenericFields_derived eq_refl (or_introl eq_refl))
    as (d & Hd & Hgen).
  exists d. split; [exact Hd|].
  simpl in Hgen. destruct Hgen as [Hin Hlen]. split; [|exact Hlen].
  apply Hin. exists "Account", sampleAccountSchema.
  split; [simpl; auto|]. by split.
Defined.

Lemma getFormStructureForCreateEdit_depends_on_witness :
  attributesOf sampleSchema = attributesOf sampleTrimmedSchema
  /\ attributeKindRelationships sampleSchema
     = attributeKindRelationships sampleTrimmedSchema
  /\ getFormStructureForCreateEdit sampleControlTypeTable bool
       (Some sampleSchema) [] [] sampleDropdownOptions sampleSchemaKindNameMap
       true sampleRow
     = getFormStructureForCreateEdit sampleControlTypeTable bool
         (Some sampleTrimmedSchema) [] [] sampleDropdownOptions
         sampleSchemaKindNameMap false sampleRow.
Proof.
  split; [reflexivity|]. split; [reflexivity|].
  by apply getFormStructureForCreateEdit_depends_on.
Defined.

Lemma createBranch_ignores_later_responses_witness :
  createBranch (Page.mk "http://localhost:8080/" "" false "" None) "feature"
    [Response.mk (Some "BranchCreate") 200 "http://localhost:8080/graphql/main";
     Response.mk (Some "GetBranches") 200
       "http://localhost:8080/graphql/feature"]
  = Return (Page.mk "http://localhost:8080/" "?branch=feature" false "feature"
              None)
  /\ createBranch (Page.mk "http://localhost:8080/" "" false "" None) "feature"
       ([Response.mk (Some "BranchCreate") 200
           "http://localhost:8080/graphql/main";
         Response.mk (Some "GetBranches") 200
           "http://localhost:8080/graphql/feature"]
        ++ [Response.mk (Some "BranchCreate") 500
              "http://localhost:8080/graphql/main"])
     = Return (Page.mk "http://localhost:8080/" "?branch=feature" false
                 "feature" None).
Proof.
  assert (H : createBranch (Page.mk "http://localhost:8080/" "" false "" None)
                "feature"
                [Response.mk (Some "BranchCreate") 200
                   "http://localhost:8080/graphql/main";
                 Response.mk (Some "GetBranches") 200
                   "http://localhost:8080/graphql/feature"]
              = Return (Page.mk "http://localhost:8080/" "?branch=feature"
                          false "feature" None))
    by (vm_compute; reflexivity).
  split; [exact H|].
  by apply createBranch_ignores_later_responses.
Defined.

Lemma relationship_list_value_witness :
  attributeKindRelationships sampleSchema !! 1 = Some sampleTags
  /\ property_of sampleRow "tags"
     = JArr [JObj [("id", JStr "t-1")]; JObj [("id", JStr "t-2")]]
  /\ exists d,
       sampleFields !! (3 + 1) = Some d
       /\ DynamicFieldData.value d = JArr [JStr "t-1"; JStr "t-2"].
Proof.
  split; [reflexivity|]. split; [reflexivity|].
  destruct (relationship_list_value _ _ _ _ _ _ _ _ _ _ 1 sampleTags
              [JObj [("id", JStr "t-1")]; JObj [("id", JStr "t-2")]]
              sampleFields_derived eq_refl ltac:(discriminate) eq_refl eq_refl)
    as (d & Hd & Hval & _).
  exists d. split; [exact Hd | exact Hval].
Defined.

Lemma getFormStructureForCreateEdit_count_and_order_witness :
  getFormStructureForCreateEdit sampleControlTypeTable unit (Some sampleSchema)
    [] [] sampleDropdownOptions sampleSchemaKindNameMap tt sampleRow
  = Return sampleFields
  /\ length sampleFields = 3 + 3
  /\ map DynamicFieldData.name sampleFields
     = ["name.value"; "status.value"; "enabled.value";
        "site.id"; "tags.list"; "owner.id"].
Proof.
  assert (H : getFormStructureForCreateEdit sampleControlTypeTable unit
                (Some sampleSchema) [] [] sampleDropdownOptions
                sampleSchemaKindNameMap tt sampleRow = Return sampleFields)
    by (vm_compute; reflexivity).
  split; [exact H|].
  destruct (proj1 (getFormStructureForCreateEdit_count_and_order
                     sampleControlTypeTable unit [] [] sampleDropdownOptions
                     sampleSchemaKindNameMap tt sampleSchema sampleRow)
              sampleFields H) as [Hlen _].
  split; [exact Hlen | reflexivity].
Defined.

Lemma createBranch_needs_two_responses_witness :
  plainBranchName "feature" = true
  /\ createBranch (Page.mk "http://localhost:8080/" "" false "" None) "feature"
       [Response.mk (Some "BranchCreate") 200
          "http://localhost:8080/graphql/main"]
     = Throw TimeoutError.
Proof.
  split; [reflexivity|].
  apply createBranch_needs_two_responses; [reflexivity | simpl; lia].
Defined.

Lemma createBranch_timeout_iff_witness :
  plainBranchName "feature" = true
  /\ createBranch (Page.mk "http://localhost:8080/" "" false "" None) "feature"
       [Response.mk (Some "GetBranches") 200
          "http://localhost:8080/graphql/feature";
        Response.mk (Some "BranchCreate") 500
          "http://localhost:8080/graphql/main"]
     = Throw TimeoutError.
Proof.
  split; [reflexivity|].
  apply createBranch_timeout_iff; reflexivity.
Defined.
